(** * Mnemosyne: the content server (server/app2.py) and the camera
      client (device/cam4.py), embedded as Rocq functions.

    Handlers and callbacks are computations in a small monad that threads
    the mutable state (the [content] table, the device globals), collects
    the outbound calls they make and propagates Python exceptions.  What the
    outside world answers (the vision and chat endpoints, the clock, the
    camera, the network) is an argument of the computation. *)

From Stdlib Require Import ZArith List String Ascii Bool Lia.
From Stdlib Require Import Sorting.Sorted Sorting.Permutation.
From Stdlib Require Import Numbers.DecimalString.
From Stdlib Require Import Structures.OrderedTypeEx.
Import ListNotations.

Local Open Scope string_scope.
Local Open Scope Z_scope.
Set Warnings "-register-all".

(* ================================================================== *)
(** * Python values, exceptions, subscripting *)

Module Py.

(** The values the JSON decoder builds ([request.json], [response.json()],
    [json.loads]): objects are dicts with [str] keys, read by first match.
    A [str] is kept as its UTF-8 bytes.  Numbers with a fraction or an
    exponent do not occur in the data these programs read and are left
    out. *)
Inductive value : Type :=
| None_
| Bool (b : bool)
| Int (n : Z)
| Str (s : string)
| List (l : list value)
| Dict (d : list (string * value)).

Inductive exn : Type :=
| KeyError
| IndexError
| TypeError
| AttributeError
| OverflowError
| UnboundLocalError
| BadRequestKeyError            (* werkzeug: missing form key, HTTP 400 *)
| ProgrammingError              (* sqlite3: unsupported parameter type *)
| DatabaseError                 (* sqlite3: no rowid left *)
| LibraryError (origin : string). (* raised inside an external call *)

Inductive result (A : Type) : Type :=
| Ok (a : A)
| Raise (e : exn).
Arguments Ok {A} a.
Arguments Raise {A} e.

Fixpoint lookup (k : string) (d : list (string * value)) : option value :=
  match d with
  | [] => None
  | (k', v) :: d' => if String.eqb k k' then Some v else lookup k d'
  end.

(** [x[k]] with a [str] key. *)
Definition getitem (x : value) (k : string) : result value :=
  match x with
  | Dict d => match lookup k d with
              | Some v => Ok v
              | None => Raise KeyError
              end
  | _ => Raise TypeError
  end.

(** A UTF-8 continuation byte is 10xxxxxx. *)
Definition is_continuation (c : ascii) : bool :=
  match c with
  | Ascii _ _ _ _ _ _ false true => true
  | _ => false
  end.

Fixpoint continuation (s : string) : string :=
  match s with
  | String c s' => if is_continuation c then String c (continuation s') else EmptyString
  | EmptyString => EmptyString
  end.

(** [x[0]]: head of a list, first character of a [str]; a decoded dict has
    no integer key. *)
Definition getitem0 (x : value) : result value :=
  match x with
  | List (v :: _) => Ok v
  | List [] => Raise IndexError
  | Str (String c s) => Ok (Str (String c (continuation s)))
  | Str EmptyString => Raise IndexError
  | Dict _ => Raise KeyError
  | _ => Raise TypeError
  end.

(** [x.get(k)] and [x.get(k, default)]. *)
Definition get (x : value) (k : string) (default : value) : result value :=
  match x with
  | Dict d => match lookup k d with
              | Some v => Ok v
              | None => Ok default
              end
  | _ => Raise AttributeError
  end.

(** Truth value of an object in a condition. *)
Definition truthy (x : value) : bool :=
  match x with
  | None_ => false
  | Bool b => b
  | Int n => negb (n =? 0)
  | Str s => negb (String.eqb s "")
  | List l => match l with [] => false | _ => true end
  | Dict d => match d with [] => false | _ => true end
  end.

(** [x == s] for a [str] literal [s]. *)
Definition eq_str (x : value) (s : string) : bool :=
  match x with
  | Str s' => String.eqb s' s
  | _ => false
  end.

Definition starts_with_continuation (s : string) : bool :=
  match s with
  | String c _ => is_continuation c
  | EmptyString => false
  end.

(** The characters of a [str]: each lead byte with the continuation
    bytes that follow it. *)
Fixpoint chars (s : string) : list string :=
  match s with
  | EmptyString => []
  | String c s' =>
      if starts_with_continuation s' then
        match chars s' with
        | x :: xs => String c x :: xs
        | [] => [String c EmptyString]
        end
      else String c EmptyString :: chars s'
  end.

(** The elements that [for x in v] runs over. *)
Definition iter (v : value) : result (list value) :=
  match v with
  | List l => Ok l
  | Dict d => Ok (map (fun kv => Str (fst kv)) d)
  | Str s => Ok (map Str (chars s))
  | _ => Raise TypeError
  end.

(** [str(n)] *)
Definition str_of_int (n : Z) : string := NilZero.string_of_int (Z.to_int n).

End Py.

Import Py.

(* ================================================================== *)
(** * State, outbound calls and exceptions *)

Module Eff.
Section Eff.
Context {S E : Type}.

(** What a computation leaves: its value or the exception that left it,
    the state at that point, and the calls it made, oldest first. *)
Record out (A : Type) : Type := Out { val : result A; st : S; log : list E }.
Arguments Out {A} val st log.
Arguments val {A} o.
Arguments st {A} o.
Arguments log {A} o.

Definition M (A : Type) : Type := S -> out A.

Definition ret {A} (a : A) : M A := fun s => Out (Ok a) s [].
Definition raise {A} (e : exn) : M A := fun s => Out (Raise e) s [].
Definition lift {A} (r : result A) : M A := fun s => Out r s [].

(** Run [k] after a computation that left state [s1] and calls [l1]. *)
Definition after {A} (s1 : S) (l1 : list E) (k : M A) : out A :=
  match k s1 with
  | Out v s2 l2 => Out v s2 (l1 ++ l2)
  end.

Definition bind {A B} (m : M A) (f : A -> M B) : M B :=
  fun s =>
    match m s with
    | Out (Ok a) s1 l1 => after s1 l1 (f a)
    | Out (Raise e) s1 l1 => Out (Raise e) s1 l1
    end.

(** [try: m  except: h] with a bare [except]. *)
Definition try_except {A} (m : M A) (h : M A) : M A :=
  fun s =>
    match m s with
    | Out (Ok a) s1 l1 => Out (Ok a) s1 l1
    | Out (Raise _) s1 l1 => after s1 l1 h
    end.

Definition get : M S := fun s => Out (Ok s) s [].
Definition put (s : S) : M unit := fun _ => Out (Ok tt) s [].
Definition emit (e : E) : M unit := fun s => Out (Ok tt) s [e].

(** Reading and assigning globals. *)
Definition gets {A} (f : S -> A) : M A := fun s => Out (Ok (f s)) s [].
Definition modify (f : S -> S) : M unit := fun s => Out (Ok tt) (f s) [].

(** Started in a state where [I] holds, [m] leaves a state where [I]
    holds, whether it returns or raises, and makes only calls that
    satisfy [Q]. *)
Definition keeps {A} (I : S -> Prop) (Q : E -> Prop) (m : M A) : Prop :=
  forall s, I s -> I (st (m s)) /\ Forall Q (log (m s)).

(** [for x in l: body] *)
Fixpoint for_each {A} (l : list A) (body : A -> M unit) : M unit :=
  match l with
  | [] => ret tt
  | x :: l' => bind (body x) (fun _ => for_each l' body)
  end.
End Eff.
Arguments out : clear implicits.
Arguments M : clear implicits.
Arguments Out {S E A} val st log.
Arguments val {S E A} o.
Arguments st {S E A} o.
Arguments log {S E A} o.
End Eff.

Declare Scope eff_scope.
Delimit Scope eff_scope with eff.
Notation "x <- m ;; k" := (Eff.bind m (fun x => k))
  (at level 61, m at next level, right associativity) : eff_scope.
Notation "m ;; k" := (Eff.bind m (fun _ => k))
  (at level 61, right associativity) : eff_scope.
Local Open Scope eff_scope.

(** The newline character of ["\n".join(...)]. *)
Definition nl : string := String (ascii_of_nat 10) EmptyString.

(* ================================================================== *)
(** * server/app2.py *)

Module Server.

(** ** The [content] table *)

(** A stored value of one of the TEXT columns: NULL or a text. *)
Definition cell : Type := option string.

(** One row of
    [content (id INTEGER PRIMARY KEY, image TEXT, description TEXT,
              timestamp TEXT, deviceid TEXT)].
    Every row the program writes has a text timestamp. *)
Record row : Type := {
  id : Z;
  image : cell;
  description : cell;
  timestamp : string;
  deviceid : cell
}.

(** The table, rows ascending in [id]: the order in which a scan
    ([SELECT * FROM content]) yields them. *)
Definition table : Type := list row.

(** A Python object bound to a [?] and stored in a TEXT column: [None] is
    NULL, a [str] is kept, an [int] (and a [bool], which is one) must fit
    64 bits and is stored as its decimal text; lists and dicts cannot be
    bound. *)
Definition bind_text (v : value) : result cell :=
  match v with
  | None_ => Ok None
  | Bool b => Ok (Some (if b then "1" else "0"))
  | Int n => if (- 2 ^ 63 <=? n) && (n <? 2 ^ 63)
             then Ok (Some (str_of_int n)) else Raise OverflowError
  | Str s => Ok (Some s)
  | List _ => Raise ProgrammingError
  | Dict _ => Raise ProgrammingError
  end.

Definition MAX_ROWID : Z := 2 ^ 63 - 1.

(** The largest id in a table that has a row. *)
Definition max_rowid (t : table) : Z :=
  match t with
  | [] => 0
  | r :: t' => fold_right (fun r' m => Z.max (id r') m) (id r) t'
  end.

Definition has_rowid (t : table) (n : Z) : bool := existsb (fun r => id r =? n) t.

(** The id given to a row inserted without one.  [INTEGER PRIMARY KEY]
    without AUTOINCREMENT: one more than the largest id in the table, 1 in
    an empty table; when the largest possible id is in use, the engine
    tries random candidates ([probes]) and takes the first unused one. *)
Definition new_rowid (probes : list Z) (t : table) : option Z :=
  match t with
  | [] => Some 1
  | _ => if max_rowid t <? MAX_ROWID then Some (max_rowid t + 1)
         else find (fun n => negb (has_rowid t n)) probes
  end.

(** The row takes its place in [id] order. *)
Fixpoint insert_row (r : row) (t : table) : table :=
  match t with
  | [] => [r]
  | r' :: t' => if id r <? id r' then r :: r' :: t' else r' :: insert_row r t'
  end.

(** [x BETWEEN a AND b] on texts: [x >= a AND x <= b], compared byte by
    byte. *)
Definition between (a b x : string) : bool := String.leb a x && String.leb x b.

(** [ORDER BY timestamp] *)
Fixpoint place (r : row) (l : list row) : list row :=
  match l with
  | [] => [r]
  | r' :: l' => if String.leb (timestamp r) (timestamp r') then r :: r' :: l'
                else r' :: place r l'
  end.

Definition order_by_timestamp (l : list row) : list row := fold_right place [] l.

(** [... FROM content WHERE timestamp BETWEEN ? AND ? ORDER BY timestamp] *)
Definition select_between (a b : string) (t : table) : list row :=
  order_by_timestamp (filter (fun r => between a b (timestamp r)) t).

(** ** Requests, responses, outbound calls *)

Inductive http_method : Type := GET | POST.

Record request : Type := {
  method : http_method;
  form : list (string * string);   (* request.form, fields in order *)
  args : list (string * string);   (* request.args *)
  json : value                     (* request.json *)
}.

(** [request.form[k]] *)
Fixpoint form_item (f : list (string * string)) (k : string) : result string :=
  match f with
  | [] => Raise BadRequestKeyError
  | (k', v) :: f' => if String.eqb k k' then Ok v else form_item f' k
  end.

(** [request.form.getlist(k)] *)
Definition getlist (f : list (string * string)) (k : string) : list string :=
  map snd (filter (fun kv => String.eqb k (fst kv)) f).

(** [request.args.get(k, default)] *)
Fixpoint args_get (a : list (string * string)) (k default : string) : string :=
  match a with
  | [] => default
  | (k', v) :: a' => if String.eqb k k' then v else args_get a' k default
  end.

(** What a view function returns.  The pages are kept as the arguments
    handed to [render_template_string]. *)
Inductive response : Type :=
| Jsonify (body : value) (status : Z)
| ContentsPage (include_images : bool) (contents : list row)
| QueryPage (question : string) (response_text : option string) (entries : string).

Record turn : Type := { role : string; content : string }.

Inductive call : Type :=
| VisionRequest (model : value) (text : string) (base64_image : value) (max_tokens : value)
| ChatRequest (model : value) (messages : list turn).

(** [completion.choices[i].message.content], one per choice. *)
Record completion : Type := { choices : list (option string) }.

Record config_t : Type := {
  openai_api_key : value;
  openai_model : value;
  max_tokens : value
}.

(** What the outside answers during one request. *)
Record world : Type := {
  now : string;                        (* datetime.now().strftime("%Y-%m-%d %H:%M:%S") *)
  vision : value -> result value;      (* requests.post(...).json() for an image *)
  new_client : result unit;            (* OpenAI() *)
  chat : list turn -> result completion; (* client.chat.completions.create *)
  rowid_probes : list Z                (* random ids tried by the engine *)
}.

Definition M : Type -> Type := Eff.M table call.

Section Handlers.
(** The integer a text denotes when it is compared with the [id]
    column (the engine's numeric conversion of the bound text), if any. *)
Variable rowid_of_text : string -> option Z.
Variable config : config_t.
Variable w : world.

Definition system_prompt : string :=
  "You are provided a set of timestamps followed by descriptions of what was observed at that time. Please infer the answer to the question based on the descriptions provided.".

Definition vision_prompt : string :=
  "What is in this image? List all detected objects.  Provide your best guesses on what scene this is. Be concise in your answer and drop unnecessary words like the or and in your response. Strive to minimize word count in your answer".

Definition ask_gpt4 (question entries_text : string) : M (option string) :=
  Eff.lift (new_client w) ;;
  let messages := [ {| role := "system"; content := system_prompt |};
                    {| role := "user"; content := question |};
                    {| role := "user"; content := entries_text |} ] in
  Eff.emit (ChatRequest (openai_model config) messages) ;;
  completion <- Eff.lift (chat w messages) ;;
  match choices completion with
  | c :: _ => Eff.ret c
  | [] => Eff.raise IndexError
  end.

Definition analyze_image (base64_image : value) : M value :=
  Eff.emit (VisionRequest (openai_model config) vision_prompt base64_image
                          (max_tokens config)) ;;
  Eff.lift (vision w base64_image).

(** [temp['choices'][0]['message']['content']] *)
Definition content_of (temp : value) : result value :=
  match getitem temp "choices" with
  | Raise e => Raise e
  | Ok cs =>
    match getitem0 cs with
    | Raise e => Raise e
    | Ok c =>
      match getitem c "message" with
      | Raise e => Raise e
      | Ok m => getitem m "content"
      end
    end
  end.

(** [INSERT INTO content (image, description, timestamp, deviceid)
     VALUES (?, ?, ?, ?)] and the commit. *)
Definition execute_insert (image_ description_ : value) (timestamp_ : string)
                          (deviceid_ : value) : M unit :=
  i <- Eff.lift (bind_text image_) ;;
  d <- Eff.lift (bind_text description_) ;;
  v <- Eff.lift (bind_text deviceid_) ;;
  t <- Eff.get ;;
  match new_rowid (rowid_probes w) t with
  | Some n => Eff.put (insert_row {| id := n; image := i; description := d;
                                     timestamp := timestamp_; deviceid := v |} t)
  | None => Eff.raise DatabaseError
  end.

Definition add_content (req : request) : M response :=
  let content_data := json req in
  image_ <- Eff.lift (getitem content_data "image") ;;
  temp <- analyze_image image_ ;;
  match content_of temp with
  | Raise _ =>                                  (* except: *)
      Eff.ret (Jsonify (Dict [("message", Str "No Content added")]) 201)
  | Ok description_ =>
      deviceid_ <- Eff.lift (Py.get content_data "deviceid" (Str "Unknown")) ;;
      let timestamp_ := now w in
      execute_insert image_ description_ timestamp_ deviceid_ ;;
      Eff.ret (Jsonify (Dict [("message", Str "Content added successfully")]) 201)
  end.

(** [DELETE FROM content WHERE id = ?] with a text parameter. *)
Definition execute_delete (content_id : string) : M unit :=
  t <- Eff.get ;;
  match rowid_of_text content_id with
  | Some n => Eff.put (filter (fun r => negb (id r =? n)) t)
  | None => Eff.ret tt
  end.

(** A local variable that is read: unbound when no assignment ran. *)
Definition local {A} (x : option A) : M A :=
  match x with
  | Some a => Eff.ret a
  | None => Eff.raise UnboundLocalError
  end.

Definition manage_contents (req : request) : M response :=
  let start_date0 : option string := None in
  vars <- match method req with
          | POST =>
              start_date <- Eff.lift (form_item (form req) "start_date") ;;
              start_time <- Eff.lift (form_item (form req) "start_time") ;;
              end_date <- Eff.lift (form_item (form req) "end_date") ;;
              end_time <- Eff.lift (form_item (form req) "end_time") ;;
              let selected_ids := getlist (form req) "content_id" in
              Eff.for_each selected_ids execute_delete ;;
              Eff.ret (Some start_date, Some start_time, Some end_date, Some end_time)
          | GET => Eff.ret (start_date0, None, None, None)
          end ;;
  let '(start_date, start_time, end_date, end_time) := vars in
  contents <- match start_date with
              | None => Eff.get            (* SELECT * FROM content *)
              | Some start_date =>
                  start_time <- local start_time ;;
                  end_date <- local end_date ;;
                  end_time <- local end_time ;;
                  let start_datetime := start_date ++ " " ++ start_time in
                  let end_datetime := end_date ++ " " ++ end_time in
                  t <- Eff.get ;;
                  Eff.ret (select_between start_datetime end_datetime t)
              end ;;
  let include_images := String.eqb (args_get (args req) "i" "0") "1" in
  Eff.ret (ContentsPage include_images contents).

(** How an f-string shows a column value: NULL comes back as [None]. *)
Definition format_cell (c : cell) : string :=
  match c with
  | Some s => s
  | None => "None"
  end.

Definition entries_text_of (entries : list (string * cell)) : string :=
  String.concat nl (map (fun entry => fst entry ++ ": " ++ format_cell (snd entry)) entries).

Definition query (req : request) : M response :=
  match method req with
  | POST =>
      question <- Eff.lift (form_item (form req) "question") ;;
      start_date <- Eff.lift (form_item (form req) "start_date") ;;
      start_time <- Eff.lift (form_item (form req) "start_time") ;;
      end_date <- Eff.lift (form_item (form req) "end_date") ;;
      end_time <- Eff.lift (form_item (form req) "end_time") ;;
      let start_datetime := start_date ++ " " ++ start_time in
      let end_datetime := end_date ++ " " ++ end_time in
      t <- Eff.get ;;
      let entries := map (fun r => (timestamp r, description r))
                         (select_between start_datetime end_datetime t) in
      let entries_text := entries_text_of entries in
      response_text <- ask_gpt4 question entries_text ;;
      Eff.ret (QueryPage question response_text entries_text)
  | GET => Eff.ret (QueryPage "" (Some "") "")
  end.
End Handlers.

(** The integer a text of decimal digits denotes.  On such texts this is
    the engine's conversion; the engine also converts texts written
    otherwise (blanks around the digits, a sign, a fraction or an exponent,
    as in [1.0]), which this function leaves out.  It is used for the
    examples only, on plain decimal texts and on texts that denote no
    number; the handlers take the conversion as [rowid_of_text]. *)
Definition decimal_rowid (s : string) : option Z :=
  option_map Z.of_int (NilZero.int_of_string s).

(** The value stored for [deviceid]. *)
Definition deviceid_cell (content_data : value) : result cell :=
  match Py.get content_data "deviceid" (Str "Unknown") with
  | Ok v => bind_text v
  | Raise e => Raise e
  end.

(** The two bodies of [/add_content], both sent with status 201. *)
Definition no_content : response :=
  Jsonify (Dict [("message", Str "No Content added")]) 201.
Definition content_added : response :=
  Jsonify (Dict [("message", Str "Content added successfully")]) 201.

(** [r] is one of the rows that the texts [ids] denote. *)
Definition listed (rowid_of_text : string -> option Z) (ids : list string) (r : row) : bool :=
  existsb (fun c => match rowid_of_text c with
                    | Some n => id r =? n
                    | None => false
                    end) ids.

(** Requests that change the table, and what a series of them leaves. *)
Inductive op : Type :=
| AddContent (w : world) (req : request)
| ManageContents (req : request).

Definition step (rowid_of_text : string -> option Z) (config : config_t)
                (o : op) (t : table) : table :=
  match o with
  | AddContent w req => Eff.st (add_content config w req t)
  | ManageContents req => Eff.st (manage_contents rowid_of_text req t)
  end.

Definition run (rowid_of_text : string -> option Z) (config : config_t)
               (ops : list op) (t : table) : table :=
  fold_left (fun t' o => step rowid_of_text config o t') ops t.

(** The ids of the table are ascending and lie in [1, k]. *)
Definition ids_within (k : Z) (t : table) : Prop :=
  StronglySorted Z.lt (map id t) /\ Forall (fun r => 1 <= id r <= k) t.

(** The order of two rows by timestamp. *)
Definition ts_le (r1 r2 : row) : Prop :=
  String.leb (timestamp r1) (timestamp r2) = true.

(** ** [/get_contents] *)

(** A column value as the row object hands it back: NULL is [None]. *)
Definition cell_value (c : cell) : value :=
  match c with
  | Some s => Str s
  | None => None_
  end.

(** The dict built for one row. *)
Definition row_dict (content : row) : value :=
  Dict [("id", Int (id content));
        ("image", cell_value (image content));
        ("description", cell_value (description content));
        ("timestamp", Str (timestamp content));
        ("deviceid", cell_value (deviceid content))].

Definition get_contents : M response :=
  contents <- Eff.get ;;                    (* SELECT * FROM content *)
  let content_list :=
    fold_left (fun acc content => acc ++ [row_dict content])%list contents [] in
  Eff.ret (Jsonify (List content_list) 200).

(** A POST to [/contents] that carries the four date fields: the one whose
    deletions run. *)
Definition has_field (f : list (string * string)) (k : string) : bool :=
  match form_item f k with
  | Ok _ => true
  | Raise _ => false
  end.

Definition deletes (req : request) : bool :=
  match method req with
  | POST => forallb (has_field (form req))
                    ["start_date"; "start_time"; "end_date"; "end_time"]
  | GET => false
  end.

(** The five fields that a POST to [/query] reads. *)
Definition query_fields : list string :=
  ["question"; "start_date"; "start_time"; "end_date"; "end_time"].

(** Sample data. *)
Module Sample.
Definition config : config_t :=
  {| openai_api_key := Str "sk-test"; openai_model := Str "gpt-4o"; max_tokens := Int 300 |}.

(** A chat-completions body whose first choice has the given content. *)
Definition reply (c : value) : value :=
  Dict [("id", Str "chatcmpl-1");
        ("choices", List [Dict [("index", Int 0);
                                ("message", Dict [("role", Str "assistant");
                                                  ("content", c)])]])].

(** The body the endpoint sends when it refuses the request. *)
Definition refusal : value :=
  Dict [("error", Dict [("message", Str "Incorrect API key provided");
                        ("type", Str "invalid_request_error")])].

Definition world_of (v : value -> result value) : world :=
  {| now := "2024-05-01 10:00:00";
     vision := v;
     new_client := Ok tt;
     chat := fun _ => Ok {| choices := [Some "A kitchen, around ten."] |};
     rowid_probes := [] |}.

Definition upload (description_ : string) : request :=
  {| method := POST; form := []; args := [];
     json := Dict [("image", Str "aGVsbG8="); ("description", Str description_);
                   ("deviceid", Str "192.168.1.20")] |}.

Definition kitchen : row :=
  {| id := 1; image := Some "aGVsbG8="; description := Some "kitchen";
     timestamp := "2024-05-01 10:00:00"; deviceid := Some "192.168.1.20" |}.

(** The same upload with any object as description, or none. *)
Definition upload_fields : list (string * value) :=
  [("image", Str "aGVsbG8="); ("deviceid", Str "192.168.1.20")].

Definition post (f : list (string * string)) : request :=
  {| method := POST; form := f; args := []; json := None_ |}.

(** Two later rows; the first was stored with a null description. *)
Definition study : row :=
  {| id := 2; image := Some "c3R1ZHk="; description := None;
     timestamp := "2024-05-01 10:30:00"; deviceid := Some "192.168.1.20" |}.

Definition garden : row :=
  {| id := 3; image := Some "Z2FyZGVu"; description := Some "garden";
     timestamp := "2024-05-01 12:00:00"; deviceid := None |}.
End Sample.

End Server.

(* ================================================================== *)
(** * device/cam4.py *)

Module Device.

Inductive level : Type := HIGH | LOW.

(** A [Picamera2] object, by the order of its creation. *)
Definition camera : Type := nat.

(** A PIL image. *)
Inductive pil_image : Type := PilImage (pixels : string).

Record config_t : Type := {
  shutdown_counter_max : Z;
  default_device_id : value;
  led_1 : Z;                          (* config['gpio_pins']['led_1'] *)
  led_2 : Z;
  contentserver_url : string;
  google_api_key : string;
  google_model : string;
  openai_api_key : string;
  openai_model : string;
  max_tokens : Z
}.

(** The module's global variables. *)
Record globals : Type := {
  shutdownCounter : Z;
  picam2 : option camera;             (* None until first use *)
  devId : value;
  ip : value;
  firstTime : Z
}.

Definition initial (config : config_t) : globals :=
  {| shutdownCounter := shutdown_counter_max config;
     picam2 := None;
     devId := default_device_id config;
     ip := Str "";
     firstTime := 0 |}.

Definition set_shutdownCounter (n : Z) (g : globals) : globals :=
  {| shutdownCounter := n; picam2 := picam2 g; devId := devId g; ip := ip g;
     firstTime := firstTime g |}.
Definition set_picam2 (c : option camera) (g : globals) : globals :=
  {| shutdownCounter := shutdownCounter g; picam2 := c; devId := devId g; ip := ip g;
     firstTime := firstTime g |}.
Definition set_devId (v : value) (g : globals) : globals :=
  {| shutdownCounter := shutdownCounter g; picam2 := picam2 g; devId := v; ip := ip g;
     firstTime := firstTime g |}.
Definition set_ip (v : value) (g : globals) : globals :=
  {| shutdownCounter := shutdownCounter g; picam2 := picam2 g; devId := devId g; ip := v;
     firstTime := firstTime g |}.
Definition set_firstTime (n : Z) (g : globals) : globals :=
  {| shutdownCounter := shutdownCounter g; picam2 := picam2 g; devId := devId g; ip := ip g;
     firstTime := n |}.

(** What a callback does to the outside. *)
Inductive effect : Type :=
| GpioOutput (pin : Z) (lv : level)                       (* GPIO.output *)
| OsSystem (command : string)                             (* os.system *)
| OsPopen (command : string)                              (* os.popen *)
| OpenaiRequest (model text base64_image : string) (max_tokens_ : Z)
| GeminiRequest (model text : string) (img : pil_image)   (* model.generate_content *)
| HttpPost (url : string) (payload : value).              (* requests.post(url, json=payload) *)

(** What the outside answers during one capture. *)
Record world : Type := {
  new_camera : result camera;                       (* Picamera2() *)
  ip_route : result value;                          (* json.loads(os.popen(...).read()) *)
  take_picture : camera -> result (string * pil_image);
    (* configure, start, sleep, stop, configure, start, capture_array, stop,
       Image.fromarray, the two saves, b64encode *)
  openai : string -> result value;                  (* requests.post(...).json() *)
  gemini : pil_image -> result string;              (* generate_content, resolve, text *)
  server : value -> result string                   (* requests.post(...), response.text *)
}.

Definition M : Type -> Type := Eff.M globals effect.

Section Callbacks.
Variable config : config_t.
Variable w : world.

Definition gpio_output (pin : Z) (lv : level) : M unit := Eff.emit (GpioOutput pin lv).

Definition post_content (description : string) (base64_image : string) : M unit :=
  deviceid <- Eff.gets devId ;;
  let payload := Dict [("image", Str base64_image);
                       ("description", Str description);
                       ("deviceid", deviceid)] in
  Eff.emit (HttpPost (contentserver_url config) payload) ;;
  response_text <- Eff.lift (server w payload) ;;
  Eff.ret tt.

(** The text sent with the image, the same to both providers. *)
Definition vision_prompt : string :=
  "What is in this image? Be as specific as possible, and list all attributes about the detected objects.  Provide relative locations of objects. Provide your best guesses on scene this is and your reasoning for these guesses.".

Definition analyze_image_google (img : pil_image) : M string :=
  Eff.emit (GeminiRequest (google_model config) vision_prompt img) ;;
  Eff.lift (gemini w img).

Definition analyze_image (base64_image : string) : M value :=
  Eff.emit (OpenaiRequest (openai_model config) vision_prompt base64_image
                          (max_tokens config)) ;;
  Eff.lift (openai w base64_image).

Definition getIP : M unit :=
  Eff.emit (OsPopen "ip -j -4 route") ;;
  routes <- Eff.lift (ip_route w) ;;
  rs <- Eff.lift (iter routes) ;;
  Eff.for_each rs (fun r =>
    dev <- Eff.lift (Py.get r "dev" None_) ;;
    if eq_str dev "wlan0" then
      prefsrc <- Eff.lift (Py.get r "prefsrc" None_) ;;
      if truthy prefsrc then
        v <- Eff.lift (getitem r "prefsrc") ;;
        Eff.modify (set_ip v)                      (* continue *)
      else Eff.ret tt
    else Eff.ret tt) ;;
  v <- Eff.gets ip ;;
  Eff.modify (set_devId v).

Definition capture_image_and_save_to_base64 : M (string * pil_image) :=
  cam <- Eff.gets picam2 ;;
  match cam with
  | None => c <- Eff.lift (new_camera w) ;; Eff.modify (set_picam2 (Some c))
  | Some _ => Eff.ret tt
  end ;;
  ft <- Eff.gets firstTime ;;
  (if ft =? 0 then getIP ;; Eff.modify (set_firstTime 1) else Eff.ret tt) ;;
  cam <- Eff.gets picam2 ;;
  match cam with
  | Some c => Eff.lift (take_picture w c)
  | None => Eff.raise AttributeError
  end.

Definition captureImageOpenai : M unit :=
  gpio_output (led_2 config) HIGH ;;
  gpio_output (led_1 config) HIGH ;;
  shot <- capture_image_and_save_to_base64 ;;
  let '(image_base64, saved_image) := shot in
  gpio_output (led_2 config) LOW ;;
  Eff.try_except
    (let description := "" in
     post_content description image_base64)
    (Eff.modify (set_picam2 None)) ;;
  gpio_output (led_1 config) LOW.

Definition captureImageGoogle : M unit :=
  gpio_output (led_2 config) HIGH ;;
  gpio_output (led_1 config) HIGH ;;
  shot <- capture_image_and_save_to_base64 ;;
  let '(image_base64, saved_image) := shot in
  gpio_output (led_1 config) LOW ;;
  Eff.try_except
    (result_ <- analyze_image_google saved_image ;;
     let description := result_ in
     post_content description image_base64)
    (Eff.modify (set_picam2 None)) ;;
  gpio_output (led_2 config) LOW.

Definition buttonCallback (channel : Z) : M unit :=
  gpio_output (led_1 config) HIGH ;;
  gpio_output (led_2 config) LOW ;;
  Eff.modify (set_shutdownCounter (shutdown_counter_max config)) ;;
  captureImageOpenai.

Definition buttonCallback2 (channel : Z) : M unit :=
  gpio_output (led_2 config) HIGH ;;
  gpio_output (led_1 config) HIGH ;;
  n <- Eff.gets shutdownCounter ;;
  Eff.modify (set_shutdownCounter (n - 1)) ;;
  n' <- Eff.gets shutdownCounter ;;
  if n' =? 0 then
    gpio_output (led_2 config) HIGH ;;
    gpio_output (led_1 config) HIGH ;;
    Eff.emit (OsSystem "sudo shutdown now")
  else Eff.ret tt.

Definition buttonCallback3 (channel : Z) : M unit :=
  gpio_output (led_1 config) LOW ;;
  gpio_output (led_2 config) HIGH ;;
  Eff.modify (set_shutdownCounter (shutdown_counter_max config)) ;;
  captureImageGoogle.
End Callbacks.

(** A rising edge on one of the three buttons, with what the outside
    answers while its callback runs. *)
Inductive event : Type :=
| OpenaiButton (w : world)
| ShutdownButton
| GoogleButton (w : world).

(** The callback registered for the button ([initGpio]); the channel is
    the button's pin, which no callback reads. *)
Definition fire (config : config_t) (e : event) : M unit :=
  match e with
  | OpenaiButton w => buttonCallback config w 0
  | ShutdownButton => buttonCallback2 config 0
  | GoogleButton w => buttonCallback3 config w 0
  end.

(** The callbacks of a series of events, one after the other; the GPIO
    layer prints the traceback of an exception that leaves a callback and
    goes on.  For each event, what its callback did. *)
Fixpoint run (config : config_t) (es : list event) (g : globals)
  : list (list effect) * globals :=
  match es with
  | [] => ([], g)
  | e :: es' =>
      let r := fire config e g in
      let '(ls, g') := run config es' (Eff.st r) in
      (Eff.log r :: ls, g')
  end.

Definition is_shutdown (x : effect) : bool :=
  match x with
  | OsSystem c => String.eqb c "sudo shutdown now"
  | _ => false
  end.

Definition not_shutdown (x : effect) : Prop := is_shutdown x = false.

(** The number of shutdown requests among the effects. *)
Definition shutdowns (l : list effect) : nat := List.length (filter is_shutdown l).

(** The payloads posted to the content server. *)
Fixpoint posts (l : list effect) : list value :=
  match l with
  | [] => []
  | HttpPost _ payload :: l' => payload :: posts l'
  | _ :: l' => posts l'
  end.

Definition is_openai_request (x : effect) : bool :=
  match x with
  | OpenaiRequest _ _ _ _ => true
  | _ => false
  end.

(** Neither an upload nor a request to the OpenAI endpoint. *)
Definition silent (x : effect) : Prop :=
  match x with
  | HttpPost _ _ => False
  | OpenaiRequest _ _ _ _ => False
  | _ => True
  end.

(** An upload, if it is one, carries the device id [d]. *)
Definition carries (d : value) (x : effect) : Prop :=
  match x with
  | HttpPost _ payload => getitem payload "deviceid" = Ok d
  | _ => True
  end.

(** The device id has been resolved, to [d]. *)
Definition resolved (d : value) (g : globals) : Prop :=
  firstTime g = 1 /\ devId g = d.

(** For each event of the series, the number of shutdown requests its
    callback issued. *)
Definition requests (config : config_t) (es : list event) (g : globals) : list nat :=
  map shutdowns (fst (run config es g)).

(** Every payload posted while the series ran. *)
Definition uploads (config : config_t) (es : list event) (g : globals) : list value :=
  posts (List.concat (fst (run config es g))).

(** A route of the table, as decoded: is it on wlan0, and does it have a
    [prefsrc] field; has it a [prefsrc] that counts as true. *)
Definition on_wlan0 (route : list (string * value)) : bool :=
  match lookup "dev" route with
  | Some dev => eq_str dev "wlan0"
  | None => false
  end.

Definition has_prefsrc (route : list (string * value)) : bool :=
  match lookup "prefsrc" route with
  | Some _ => true
  | None => false
  end.

(** The address the loop of [getIP] ends with: the [prefsrc] of the last
    route on wlan0 that has one that counts as true, the address it
    started with when there is no such route. *)
Fixpoint detected (routes : list (list (string * value))) (ip0 : value) : value :=
  match routes with
  | [] => ip0
  | route :: routes' =>
      detected routes'
        (match lookup "prefsrc" route with
         | Some v => if on_wlan0 route && truthy v then v else ip0
         | None => ip0
         end)
  end.

(** The payload of an upload. *)
Definition payload_of (image_base64 description : string) (deviceid : value) : value :=
  Dict [("image", Str image_base64); ("description", Str description);
        ("deviceid", deviceid)].

(** Not a query of the routing table. *)
Definition not_popen (x : effect) : Prop :=
  match x with
  | OsPopen _ => False
  | _ => True
  end.

(** Not a write to an LED. *)
Definition not_gpio (x : effect) : Prop :=
  match x with
  | GpioOutput _ _ => False
  | _ => True
  end.

(** The id and the address are settled: the routing table has been read. *)
Definition settled (d i : value) (g : globals) : Prop :=
  firstTime g = 1 /\ devId g = d /\ ip g = i.

(** The level of a pin after the effects, given its level before: that of
    the last write to it. *)
Fixpoint led_after (pin : Z) (l : list effect) (before : level) : level :=
  match l with
  | [] => before
  | GpioOutput p lv :: l' => led_after pin l' (if p =? pin then lv else before)
  | _ :: l' => led_after pin l' before
  end.

(** The routes [getIP] runs over, when the table can be decoded and
    iterated. *)
Definition routes_of (w : world) : result (list value) :=
  match ip_route w with
  | Ok routes => iter routes
  | Raise e => Raise e
  end.

(** No route of the table is on wlan0 with a [prefsrc] field. *)
Definition no_wlan0_prefsrc (routes : list (list (string * value))) : bool :=
  forallb (fun route => negb (on_wlan0 route && has_prefsrc route)) routes.

(** Sample data. *)
Module Sample.
Definition config : config_t :=
  {| shutdown_counter_max := 3;
     default_device_id := Str "camera-1";
     led_1 := 12; led_2 := 18;
     contentserver_url := "http://192.168.1.2:5000/add_content";
     google_api_key := "g-test"; google_model := "gemini-pro-vision";
     openai_api_key := "sk-test"; openai_model := "gpt-4o"; max_tokens := 300 |}.

(** The routing table of a device on Wi-Fi, and of one on a cable. *)
Definition wifi : list (list (string * value)) :=
  [ [("dst", Str "default"); ("gateway", Str "192.168.1.1"); ("dev", Str "wlan0")];
    [("dst", Str "192.168.1.0/24"); ("dev", Str "wlan0");
     ("prefsrc", Str "192.168.1.20")] ].

Definition cable : list (list (string * value)) :=
  [ [("dst", Str "default"); ("gateway", Str "10.0.0.1"); ("dev", Str "eth0")];
    [("dst", Str "10.0.0.0/24"); ("dev", Str "eth0"); ("prefsrc", Str "10.0.0.5")] ].

Definition world_of (routes : list (list (string * value)))
                    (shot : result (string * pil_image))
                    (ack : result string) : world :=
  {| new_camera := Ok 0%nat;
     ip_route := Ok (List (map Dict routes));
     take_picture := fun _ => shot;
     openai := fun _ => Raise (LibraryError "requests.post");
     gemini := fun _ => Ok "a desk with a lamp";
     server := fun _ => ack |}.

Definition picture : result (string * pil_image) := Ok ("aGVsbG8=", PilImage "frame").

(** The globals once a first capture has been made. *)
Definition warm : globals :=
  {| shutdownCounter := 3; picam2 := Some 0%nat; devId := Str "192.168.1.20";
     ip := Str "192.168.1.20"; firstTime := 1 |}.
End Sample.

End Device.

(* ================================================================== *)
(** * Laws of sequencing *)

Module EffFacts.
Section EffFacts.
Context {S E : Type}.
Local Abbreviation M := (Eff.M S E).

Lemma after_nil {A} (k : M A) (s : S) : Eff.after s [] k = k s.
Proof. unfold Eff.after. now destruct (k s). Qed.

Lemma bind_out {A B} (m : M A) (f : A -> M B) (s : S) a s1 l1 :
  m s = Eff.Out (Ok a) s1 l1 -> Eff.bind m f s = Eff.after s1 l1 (f a).
Proof. unfold Eff.bind. now intros ->. Qed.

Lemma bind_out_raise {A B} (m : M A) (f : A -> M B) (s : S) e s1 l1 :
  m s = Eff.Out (Raise e) s1 l1 -> Eff.bind m f s = Eff.Out (Raise e) s1 l1.
Proof. unfold Eff.bind. now intros ->. Qed.

Lemma bind_ret {A B} (a : A) (f : A -> M B) (s : S) :
  Eff.bind (Eff.ret a) f s = f a s.
Proof. unfold Eff.bind, Eff.ret. apply after_nil. Qed.

Lemma bind_lift_ok {A B} (a : A) (f : A -> M B) (s : S) :
  Eff.bind (Eff.lift (Ok a)) f s = f a s.
Proof. unfold Eff.bind, Eff.lift. apply after_nil. Qed.

Lemma bind_lift_raise {A B} (e : exn) (f : A -> M B) (s : S) :
  Eff.bind (Eff.lift (Raise e)) f s = Eff.Out (Raise e) s [].
Proof. reflexivity. Qed.

Lemma bind_raise {A B} (e : exn) (f : A -> M B) (s : S) :
  Eff.bind (Eff.raise e) f s = Eff.Out (Raise e) s [].
Proof. reflexivity. Qed.

Lemma bind_get {B} (f : S -> M B) (s : S) : Eff.bind Eff.get f s = f s s.
Proof. unfold Eff.bind, Eff.get. apply after_nil. Qed.

Lemma bind_put {B} (s' : S) (f : unit -> M B) (s : S) :
  Eff.bind (Eff.put s') f s = f tt s'.
Proof. unfold Eff.bind, Eff.put. apply after_nil. Qed.

Lemma bind_emit {B} (c : E) (f : unit -> M B) (s : S) :
  Eff.bind (Eff.emit c) f s
  = match f tt s with Eff.Out v s2 l2 => Eff.Out v s2 (c :: l2) end.
Proof. reflexivity. Qed.

Lemma bind_gets {A B} (p : S -> A) (f : A -> M B) (s : S) :
  Eff.bind (Eff.gets p) f s = f (p s) s.
Proof. unfold Eff.bind, Eff.gets. apply after_nil. Qed.

Lemma bind_modify {B} (g : S -> S) (f : unit -> M B) (s : S) :
  Eff.bind (Eff.modify g) f s = f tt (g s).
Proof. unfold Eff.bind, Eff.modify. apply after_nil. Qed.

Lemma st_bind_emit {B} (c : E) (f : unit -> M B) (s : S) :
  Eff.st (Eff.bind (Eff.emit c) f s) = Eff.st (f tt s).
Proof. rewrite bind_emit. now destruct (f tt s). Qed.

Lemma val_bind_emit {B} (c : E) (f : unit -> M B) (s : S) :
  Eff.val (Eff.bind (Eff.emit c) f s) = Eff.val (f tt s).
Proof. rewrite bind_emit. now destruct (f tt s). Qed.

Lemma log_bind_emit {B} (c : E) (f : unit -> M B) (s : S) :
  Eff.log (Eff.bind (Eff.emit c) f s) = c :: Eff.log (f tt s).
Proof. rewrite bind_emit. now destruct (f tt s). Qed.

Lemma val_after {A} (s : S) (l : list E) (k : M A) :
  Eff.val (Eff.after s l k) = Eff.val (k s).
Proof. unfold Eff.after. now destruct (k s). Qed.

Lemma st_after {A} (s : S) (l : list E) (k : M A) :
  Eff.st (Eff.after s l k) = Eff.st (k s).
Proof. unfold Eff.after. now destruct (k s). Qed.

Lemma log_after {A} (s : S) (l : list E) (k : M A) :
  Eff.log (Eff.after s l k) = (l ++ Eff.log (k s))%list.
Proof. unfold Eff.after. now destruct (k s). Qed.

Lemma after_bind {A B} (s : S) (l : list E) (m : M A) (f : A -> M B) :
  Eff.after s l (Eff.bind m f)
  = match m s with
    | Eff.Out (Ok a) s1 l1 => Eff.after s1 (l ++ l1) (f a)
    | Eff.Out (Raise e) s1 l1 => Eff.Out (Raise e) s1 (l ++ l1)
    end.
Proof.
  unfold Eff.after, Eff.bind. destruct (m s) as [[a | e] s1 l1]; [| reflexivity].
  unfold Eff.after. destruct (f a s1). now rewrite app_assoc.
Qed.

Lemma bind_assoc {A B C} (m : M A) (f : A -> M B) (g : B -> M C) (s : S) :
  Eff.bind (Eff.bind m f) g s = Eff.bind m (fun a => Eff.bind (f a) g) s.
Proof.
  unfold Eff.bind at 1 2 3. destruct (m s) as [[a | e] s1 l1]; [| reflexivity].
  rewrite after_bind. unfold Eff.after at 1.
  destruct (f a s1) as [[b | e] s2 l2]; reflexivity.
Qed.
Section Keeps.
Variable I : S -> Prop.
Variable Q : E -> Prop.

Lemma keeps_ret {A} (a : A) : Eff.keeps I Q (Eff.ret a).
Proof. intros s Hs. cbn. auto. Qed.

Lemma keeps_lift {A} (r : result A) : Eff.keeps I Q (Eff.lift r).
Proof. intros s Hs. cbn. auto. Qed.

Lemma keeps_raise {A} (e : exn) : Eff.keeps I Q (Eff.raise (A := A) e).
Proof. intros s Hs. cbn. auto. Qed.

Lemma keeps_gets {A} (p : S -> A) : Eff.keeps I Q (Eff.gets p).
Proof. intros s Hs. cbn. auto. Qed.

Lemma keeps_emit (c : E) : Q c -> Eff.keeps I Q (Eff.emit c).
Proof. intros Hc s Hs. cbn. auto. Qed.

Lemma keeps_modify (f : S -> S) :
  (forall s, I s -> I (f s)) -> Eff.keeps I Q (Eff.modify f).
Proof. intros Hf s Hs. cbn. auto. Qed.

Lemma keeps_bind {A B} (m : M A) (f : A -> M B) :
  Eff.keeps I Q m -> (forall a, Eff.keeps I Q (f a)) -> Eff.keeps I Q (Eff.bind m f).
Proof.
  intros Hm Hf s Hs. specialize (Hm s Hs). unfold Eff.bind.
  destruct (m s) as [[a | e] s1 l1]; cbn in *; [| exact Hm].
  destruct Hm as [H1 L1]. specialize (Hf a s1 H1). unfold Eff.after.
  destruct (f a s1) as [v s2 l2]. cbn in *.
  split; [tauto |]. apply Forall_app. tauto.
Qed.

(** The value read from the state may be used with what [I] says of it. *)
Lemma keeps_gets_bind {A B} (p : S -> A) (f : A -> M B) :
  (forall s, I s -> Eff.keeps I Q (f (p s))) -> Eff.keeps I Q (Eff.bind (Eff.gets p) f).
Proof.
  intros Hf s Hs. rewrite (bind_out _ _ s (p s) s []) by reflexivity.
  rewrite after_nil. exact (Hf s Hs s Hs).
Qed.

Lemma keeps_try_except {A} (m h : M A) :
  Eff.keeps I Q m -> Eff.keeps I Q h -> Eff.keeps I Q (Eff.try_except m h).
Proof.
  intros Hm Hh s Hs. specialize (Hm s Hs). unfold Eff.try_except.
  destruct (m s) as [[a | e] s1 l1]; cbn in *; [exact Hm |].
  destruct Hm as [H1 L1]. specialize (Hh s1 H1). unfold Eff.after.
  destruct (h s1) as [v s2 l2]. cbn in *.
  split; [tauto |]. apply Forall_app. tauto.
Qed.

Lemma keeps_for_each {A} (l : list A) (body : A -> M unit) :
  (forall x, Eff.keeps I Q (body x)) -> Eff.keeps I Q (Eff.for_each l body).
Proof.
  intro Hb. induction l as [| x l IH]; cbn [Eff.for_each].
  - apply keeps_ret.
  - apply keeps_bind; [apply Hb | intros _; exact IH].
Qed.
End Keeps.
End EffFacts.
End EffFacts.


(** One step of a computation whose head is known. *)
Ltac eff_step :=
  first [ rewrite EffFacts.bind_assoc
        | rewrite EffFacts.bind_lift_ok
        | rewrite EffFacts.bind_lift_raise
        | rewrite EffFacts.bind_ret
        | rewrite EffFacts.bind_raise
        | rewrite EffFacts.bind_get
        | rewrite EffFacts.bind_gets
        | rewrite EffFacts.bind_modify
        | rewrite EffFacts.bind_put
        | rewrite EffFacts.bind_emit ];
  cbv beta zeta.

(* ================================================================== *)
(** * Properties of the server *)

Module ServerSpec.
Import Server.

(** ** Ordering of timestamps *)

Lemma leb_iff (x y : string) :
  String.leb x y = true <-> String_as_OT.lt x y \/ x = y.
Proof.
  unfold String.leb. split.
  - destruct (String.compare x y) eqn:C; intro H; try discriminate.
    + right. now apply String_as_OT.cmp_eq.
    + left. now apply String_as_OT.cmp_lt.
  - intros [L | ->].
    + apply String_as_OT.cmp_lt in L. unfold String_as_OT.cmp in L. now rewrite L.
    + assert (C : String.compare y y = Eq) by now apply String_as_OT.cmp_eq.
      now rewrite C.
Qed.

Lemma leb_trans (x y z : string) :
  String.leb x y = true -> String.leb y z = true -> String.leb x z = true.
Proof.
  rewrite !leb_iff. intros [L1 | ->] [L2 | ->]; auto.
  left. eapply String_as_OT.lt_trans; eauto.
Qed.

Lemma leb_false_le (x y : string) :
  String.leb x y = false -> String.leb y x = true.
Proof.
  intro H. destruct (String.leb_total x y) as [T | T]; congruence.
Qed.

Lemma place_perm (r : row) (l : list row) : Permutation (place r l) (r :: l).
Proof.
  induction l as [| r' l IH]; cbn.
  - reflexivity.
  - destruct (String.leb (timestamp r) (timestamp r')).
    + reflexivity.
    + rewrite IH. apply perm_swap.
Qed.

Lemma order_by_timestamp_perm (l : list row) : Permutation (order_by_timestamp l) l.
Proof.
  induction l as [| r l IH]; cbn.
  - constructor.
  - rewrite place_perm. now constructor.
Qed.

Lemma place_sorted (r : row) (l : list row) :
  StronglySorted ts_le l -> StronglySorted ts_le (place r l).
Proof.
  induction 1 as [| r' l S IH F]; cbn.
  - repeat constructor.
  - destruct (String.leb (timestamp r) (timestamp r')) eqn:L.
    + constructor.
      * now constructor.
      * constructor; [exact L |].
        eapply Forall_impl; [| exact F].
        intros x Hx. unfold ts_le in *. eapply leb_trans; eauto.
    + constructor; [exact IH |].
      eapply Permutation_Forall; [symmetry; apply place_perm |].
      constructor; [| exact F].
      now apply leb_false_le.
Qed.

Lemma order_by_timestamp_sorted (l : list row) :
  StronglySorted ts_le (order_by_timestamp l).
Proof.
  induction l as [| r l IH]; cbn.
  - constructor.
  - now apply place_sorted.
Qed.

Lemma select_between_perm (a b : string) (t : table) :
  Permutation (select_between a b t) (filter (fun r => between a b (timestamp r)) t).
Proof. apply order_by_timestamp_perm. Qed.

Lemma select_between_sorted (a b : string) (t : table) :
  StronglySorted ts_le (select_between a b t).
Proof. apply order_by_timestamp_sorted. Qed.

Lemma select_between_In (a b : string) (t : table) (r : row) :
  In r (select_between a b t) <->
  In r t /\ String.leb a (timestamp r) = true /\ String.leb (timestamp r) b = true.
Proof.
  split.
  - intro H. apply (Permutation_in _ (select_between_perm a b t)) in H.
    apply filter_In in H. destruct H as [H1 H2].
    unfold between in H2. apply andb_true_iff in H2. tauto.
  - intros (H1 & H2 & H3).
    apply (Permutation_in _ (Permutation_sym (select_between_perm a b t))).
    apply filter_In. split; [exact H1 |]. unfold between. now rewrite H2, H3.
Qed.

(** C2.  The range query of [/contents] and [/query] returns exactly the
    rows of the table whose timestamp lies between the two bounds, both
    included (the same rows, as many times), in ascending order of
    timestamp; it is empty exactly when no row qualifies, and empty over
    the empty table. *)
Theorem select_between_exact_sorted (a b : string) (t : table) :
  Permutation (select_between a b t) (filter (fun r => between a b (timestamp r)) t)
  /\ (forall r, In r (select_between a b t) <->
                In r t /\ String.leb a (timestamp r) = true
                       /\ String.leb (timestamp r) b = true)
  /\ StronglySorted ts_le (select_between a b t)
  /\ (select_between a b t = [] <->
      forall r, In r t -> between a b (timestamp r) = false)
  /\ select_between a b [] = [].
Proof.
  split; [apply select_between_perm |].
  split; [apply select_between_In |].
  split; [apply select_between_sorted |].
  split; [| reflexivity].
  split.
  - intros E r Hr. destruct (between a b (timestamp r)) eqn:B; [| reflexivity].
    exfalso. unfold between in B. apply andb_true_iff in B.
    assert (I : In r (select_between a b t)) by (apply select_between_In; tauto).
    rewrite E in I. exact I.
  - intro H. destruct (select_between a b t) as [| r l] eqn:E; [reflexivity |].
    exfalso.
    assert (I : In r (select_between a b t)) by (rewrite E; now left).
    apply select_between_In in I. destruct I as (I1 & I2 & I3).
    specialize (H r I1). unfold between in H. rewrite I2, I3 in H. discriminate.
Qed.

(** ** [/add_content] *)

(** C1, as stated, fails: the upload has an empty description and the
    provider call fails (the transport raises), the table is left as it
    was, but the exception leaves the handler: no 201 response with
    [No Content added] is produced. *)
Lemma add_content_transport_failure_no_201 :
  let w := Sample.world_of (fun _ => Raise (LibraryError "requests.post")) in
  let req := Sample.upload "" in
  getitem (json req) "description" = Ok (Str "")
  /\ Eff.st (add_content Sample.config w req []) = []
  /\ Eff.val (add_content Sample.config w req []) = Raise (LibraryError "requests.post")
  /\ Eff.val (add_content Sample.config w req []) <> Ok no_content.
Proof.
  cbv zeta. repeat split; try reflexivity.
  vm_compute. discriminate.
Qed.

(** C1 (amended).  For an upload that carries an image: when the provider
    call raises, the exception leaves the handler and no row is written;
    when it returns a body from which [choices[0].message.content] cannot
    be read, no row is written and the response is 201 with
    [No Content added]; when the content is read, the values can be stored
    and an id is free, the row is written and the response is 201 with
    [Content added successfully]; otherwise the insert raises and no row is
    written. *)
Theorem add_content_outcome (cfg : config_t) (w : world) (req : request)
                            (t : table) (image_ : value) :
  getitem (json req) "image" = Ok image_ ->
  let r := add_content cfg w req t in
  match vision w image_ with
  | Raise e => Eff.val r = Raise e /\ Eff.st r = t
  | Ok temp =>
    match content_of temp with
    | Raise _ => Eff.val r = Ok no_content /\ Eff.st r = t
    | Ok description_ =>
      match bind_text image_, bind_text description_,
            deviceid_cell (json req), new_rowid (rowid_probes w) t with
      | Ok i, Ok d, Ok v, Some n =>
          Eff.val r = Ok content_added
          /\ Eff.st r = insert_row {| id := n; image := i; description := d;
                                      timestamp := now w; deviceid := v |} t
      | _, _, _, _ => (exists e, Eff.val r = Raise e) /\ Eff.st r = t
      end
    end
  end.
Proof.
  intros Himg r. subst r.
  unfold add_content, analyze_image, execute_insert, deviceid_cell.
  unfold Eff.bind, Eff.after, Eff.lift, Eff.emit, Eff.get, Eff.put, Eff.ret, Eff.raise.
  cbn. rewrite Himg. cbn.
  destruct (vision w image_) as [temp | e]; cbn; [| now split].
  destruct (content_of temp) as [d | e]; cbn; [| now split].
  destruct (Py.get (json req) "deviceid" (Str "Unknown")) as [dv | e]; cbn.
  - destruct (bind_text image_) as [i | e]; cbn; [| split; [eauto | reflexivity]].
    destruct (bind_text d) as [c | e]; cbn; [| split; [eauto | reflexivity]].
    destruct (bind_text dv) as [v | e]; cbn; [| split; [eauto | reflexivity]].
    destruct (new_rowid (rowid_probes w) t) as [n |]; cbn;
      split; eauto.
  - destruct (bind_text image_) as [i | e']; cbn; [| split; [eauto | reflexivity]].
    destruct (bind_text d) as [c | e']; cbn; split; eauto.
Qed.

(** The three outcomes on sample uploads: transport failure, a refusal
    body, a description. *)
Lemma add_content_outcome_witness :
  (Eff.val (add_content Sample.config
              (Sample.world_of (fun _ => Raise (LibraryError "requests.post")))
              (Sample.upload "") []) = Raise (LibraryError "requests.post")
   /\ Eff.st (add_content Sample.config
              (Sample.world_of (fun _ => Raise (LibraryError "requests.post")))
              (Sample.upload "") []) = [])
  /\ (Eff.val (add_content Sample.config
              (Sample.world_of (fun _ => Ok Sample.refusal))
              (Sample.upload "") []) = Ok no_content
      /\ Eff.st (add_content Sample.config
              (Sample.world_of (fun _ => Ok Sample.refusal))
              (Sample.upload "") []) = [])
  /\ (Eff.val (add_content Sample.config
              (Sample.world_of (fun _ => Ok (Sample.reply (Str "kitchen"))))
              (Sample.upload "") []) = Ok content_added
      /\ Eff.st (add_content Sample.config
              (Sample.world_of (fun _ => Ok (Sample.reply (Str "kitchen"))))
              (Sample.upload "") []) = [Sample.kitchen]).
Proof.
  split; [| split].
  - exact (add_content_outcome Sample.config
             (Sample.world_of (fun _ => Raise (LibraryError "requests.post")))
             (Sample.upload "") [] (Str "aGVsbG8=") eq_refl).
  - exact (add_content_outcome Sample.config
             (Sample.world_of (fun _ => Ok Sample.refusal))
             (Sample.upload "") [] (Str "aGVsbG8=") eq_refl).
  - exact (add_content_outcome Sample.config
             (Sample.world_of (fun _ => Ok (Sample.reply (Str "kitchen"))))
             (Sample.upload "") [] (Str "aGVsbG8=") eq_refl).
Defined.

(** C3, as stated, fails: the upload carries the description
    ["a red door"]; the provider is called all the same and the row is
    stored with the provider's text. *)
Lemma add_content_replaces_description :
  let w := Sample.world_of (fun _ => Ok (Sample.reply (Str "kitchen"))) in
  let r := add_content Sample.config w (Sample.upload "a red door") [] in
  getitem (json (Sample.upload "a red door")) "description" = Ok (Str "a red door")
  /\ Eff.log r = [VisionRequest (Str "gpt-4o") vision_prompt (Str "aGVsbG8=") (Int 300)]
  /\ map description (Eff.st r) = [Some "kitchen"]
  /\ map description (Eff.st r) <> [Some "a red door"].
Proof.
  cbv zeta. repeat split; try reflexivity.
  vm_compute. discriminate.
Qed.

Lemma In_insert_row (r x : row) (t : table) :
  In x (insert_row r t) -> x = r \/ In x t.
Proof.
  induction t as [| r' t IH]; cbn.
  - intros [<- | []]. now left.
  - destruct (id r <? id r'); cbn.
    + intros [<- | H]; auto.
    + intros [<- | H]; auto. destruct (IH H); auto.
Qed.

(** C3 (amended).  The server calls its vision provider on every upload
    that carries an image, whatever the description field holds: the
    request made to the provider and the whole outcome are those of the
    same upload sent with an empty description, and any row the upload
    adds holds the provider's content as its description. *)
Theorem add_content_ignores_description
    (cfg : config_t) (w : world) (t : table)
    (fields : list (string * value)) (d image_ : value) :
  lookup "image" fields = Some image_ ->
  let upload x := {| method := POST; form := []; args := [];
                     json := Dict (("description", x) :: fields) |} in
  let r := add_content cfg w (upload d) t in
  Eff.log r = [VisionRequest (openai_model cfg) vision_prompt image_ (max_tokens cfg)]
  /\ r = add_content cfg w (upload (Str "")) t
  /\ (forall x, In x (Eff.st r) ->
        In x t \/ exists temp c, vision w image_ = Ok temp
                                /\ content_of temp = Ok c
                                /\ bind_text c = Ok (description x)).
Proof.
  intros Himg upload r. subst r upload.
  unfold add_content, analyze_image, execute_insert.
  unfold Eff.bind, Eff.after, Eff.lift, Eff.emit, Eff.get, Eff.put, Eff.ret, Eff.raise.
  cbn. rewrite Himg. cbn.
  destruct (vision w image_) as [temp | e] eqn:Hv; cbn; [| now auto].
  destruct (content_of temp) as [c | e] eqn:Hcont; cbn; [| now auto].
  destruct (lookup "deviceid" fields) as [dv |]; cbn.
  - destruct (bind_text image_) as [i | e]; cbn; [| now auto].
    destruct (bind_text c) as [dc | e] eqn:Hc; cbn; [| now auto].
    destruct (bind_text dv) as [v | e]; cbn; [| now auto].
    destruct (new_rowid (rowid_probes w) t) as [n |]; cbn; [| now auto].
    repeat split. intros x Hx. apply In_insert_row in Hx.
    destruct Hx as [-> | Hx]; [right | now left].
    exists temp, c. cbn. auto.
  - destruct (bind_text image_) as [i | e]; cbn; [| now auto].
    destruct (bind_text c) as [dc | e] eqn:Hc; cbn; [| now auto].
    destruct (new_rowid (rowid_probes w) t) as [n |]; cbn; [| now auto].
    repeat split. intros x Hx. apply In_insert_row in Hx.
    destruct Hx as [-> | Hx]; [right | now left].
    exists temp, c. cbn. auto.
Qed.

Lemma add_content_ignores_description_witness :
  let w := Sample.world_of (fun _ => Ok (Sample.reply (Str "kitchen"))) in
  let upload x := {| method := POST; form := []; args := [];
                     json := Dict (("description", x) :: Sample.upload_fields) |} in
  let r := add_content Sample.config w (upload (Str "a red door")) [] in
  Eff.log r = [VisionRequest (Str "gpt-4o") vision_prompt (Str "aGVsbG8=") (Int 300)]
  /\ r = add_content Sample.config w (upload (Str "")) []
  /\ (forall x, In x (Eff.st r) ->
        In x [] \/ exists temp c, vision w (Str "aGVsbG8=") = Ok temp
                                 /\ content_of temp = Ok c
                                 /\ bind_text c = Ok (description x)).
Proof.
  exact (add_content_ignores_description Sample.config
           (Sample.world_of (fun _ => Ok (Sample.reply (Str "kitchen")))) []
           Sample.upload_fields (Str "a red door") (Str "aGVsbG8=") eq_refl).
Defined.

(** ** [/contents] *)

Lemma filter_all {A} (l : list A) : filter (fun _ => true) l = l.
Proof. induction l as [| x l IH]; cbn; congruence. Qed.

Lemma filter_twice {A} (f g : A -> bool) (l : list A) :
  filter f (filter g l) = filter (fun x => g x && f x) l.
Proof.
  induction l as [| x l IH]; cbn; [reflexivity |].
  destruct (g x); cbn; [destruct (f x) |]; congruence.
Qed.

(** The delete loop leaves the rows that no listed text denotes. *)
Lemma for_each_delete (rowid_of_text : string -> option Z) (ids : list string) (t : table) :
  Eff.for_each ids (execute_delete rowid_of_text) t
  = Eff.Out (Ok tt) (filter (fun r => negb (listed rowid_of_text ids r)) t) [].
Proof.
  revert t. induction ids as [| c ids IH]; intro t.
  - cbn. unfold Eff.ret. now rewrite filter_all.
  - cbn [Eff.for_each].
    unfold Eff.bind at 1. unfold execute_delete at 1.
    unfold Eff.bind, Eff.after, Eff.get, Eff.put, Eff.ret.
    destruct (rowid_of_text c) as [n |] eqn:Hc; rewrite IH; cbn [app]; f_equal.
    + rewrite filter_twice. apply filter_ext. intro r. cbn. rewrite Hc.
      now rewrite negb_orb.
    + apply filter_ext. intro r. cbn. now rewrite Hc.
Qed.

Lemma form_item_raises (f : list (string * string)) (k : string) (e : exn) :
  form_item f k = Raise e -> e = BadRequestKeyError.
Proof.
  induction f as [| [k' v] f IH]; cbn.
  - congruence.
  - destruct (String.eqb k k'); [discriminate | exact IH].
Qed.

(** No row is in a range that the timestamp of no row lies in. *)
Lemma select_between_none (a b : string) (t : table) :
  (forall x, In x t -> between a b (timestamp x) = false) ->
  select_between a b t = [].
Proof.
  intro H. unfold select_between.
  replace (filter (fun r => between a b (timestamp r)) t) with (@nil row); [reflexivity |].
  symmetry. induction t as [| r t IH]; cbn; [reflexivity |].
  rewrite (H r (or_introl eq_refl)). apply IH.
  intros x Hx. apply H. now right.
Qed.

(** C8: the code departs from the claim.  The page of [/contents] has one
    form, which holds the checkboxes, the Delete button and the four date
    inputs; a click on Delete with no date entered posts the four date
    fields as empty texts.  The listed rows are deleted, and the page then
    rendered shows no row at all, although the dates were not supplied:
    the bounds are both [" "], which the timestamp of no stored row equals.
    The rows that are left are shown by the GET path, to which the guard
    [start_date is None] sends only a request that is not a POST. *)
Theorem manage_contents_delete_click_shows_no_row
    (rowid_of_text : string -> option Z) (req : request) (t : table) :
  method req = POST ->
  form_item (form req) "start_date" = Ok "" ->
  form_item (form req) "start_time" = Ok "" ->
  form_item (form req) "end_date" = Ok "" ->
  form_item (form req) "end_time" = Ok "" ->
  (forall x, In x t -> timestamp x <> " ") ->
  let r := manage_contents rowid_of_text req t in
  let include_images := String.eqb (args_get (args req) "i" "0") "1" in
  let kept := filter (fun x => negb (listed rowid_of_text
                                       (getlist (form req) "content_id") x)) t in
  Eff.st r = kept
  /\ Eff.val r = Ok (ContentsPage include_images [])
  /\ Eff.val (manage_contents rowid_of_text
                {| method := GET; form := form req; args := args req; json := json req |}
                kept)
     = Ok (ContentsPage include_images kept).
Proof.
  intros Hm F1 F2 F3 F4 Hts r include_images kept. subst r include_images.
  split; [| split]; [| | reflexivity].
  - unfold manage_contents, local. rewrite Hm, F1, F2, F3, F4.
    unfold Eff.bind at 1 2 3 4 5. unfold Eff.after, Eff.lift.
    unfold Eff.bind at 1. rewrite for_each_delete. reflexivity.
  - unfold manage_contents, local. rewrite Hm, F1, F2, F3, F4.
    unfold Eff.bind at 1 2 3 4 5. unfold Eff.after, Eff.lift.
    unfold Eff.bind at 1. rewrite for_each_delete. fold kept.
    cbn. rewrite select_between_none; [reflexivity |].
    intros x Hx. apply filter_In in Hx. destruct Hx as [Hx _].
    unfold between. destruct (String.leb " " (timestamp x)) eqn:L1; [| reflexivity].
    destruct (String.leb (timestamp x) " ") eqn:L2; [| reflexivity].
    exfalso. apply (Hts x Hx). symmetry. now apply String.leb_antisym.
Qed.

Lemma manage_contents_delete_click_shows_no_row_witness :
  let click := Sample.post [("content_id", "1");
                            ("start_date", ""); ("start_time", "");
                            ("end_date", ""); ("end_time", "")] in
  let r := manage_contents decimal_rowid click [Sample.kitchen; Sample.study] in
  Eff.st r = [Sample.study]
  /\ Eff.val r = Ok (ContentsPage false [])
  /\ Eff.val (manage_contents decimal_rowid
                {| method := GET; form := form click; args := []; json := None_ |}
                [Sample.study])
     = Ok (ContentsPage false [Sample.study]).
Proof.
  refine (manage_contents_delete_click_shows_no_row decimal_rowid
            (Sample.post [("content_id", "1");
                          ("start_date", ""); ("start_time", "");
                          ("end_date", ""); ("end_time", "")])
            [Sample.kitchen; Sample.study]
            eq_refl eq_refl eq_refl eq_refl eq_refl _).
  intros x [<- | [<- | []]]; discriminate.
Defined.

(** ** [/query] *)

(** C7.  A POST to [/query] with its five fields sends the model the
    rows of the table whose timestamp lies between
    ["<start_date> <start_time>"] and ["<end_date> <end_time>"], both
    included, and no other row: in ascending order of timestamp, each as
    ["<timestamp>: <description>"] (a NULL description reads [None]),
    joined by newlines, the empty text when no row matches.  One
    chat-completion call is made, whose three turns are the fixed system
    instruction, the question as sent and that text; the table is left as
    it was, and the content of the model's first choice is handed,
    unchanged, to the page. *)
Theorem query_asks_once (cfg : config_t) (w : world) (req : request) (t : table)
    (question sd st_ ed et : string) :
  method req = POST ->
  form_item (form req) "question" = Ok question ->
  form_item (form req) "start_date" = Ok sd ->
  form_item (form req) "start_time" = Ok st_ ->
  form_item (form req) "end_date" = Ok ed ->
  form_item (form req) "end_time" = Ok et ->
  new_client w = Ok tt ->
  let a := sd ++ " " ++ st_ in
  let b := ed ++ " " ++ et in
  let r := query cfg w req t in
  exists rows : list row,
    Permutation rows
      (filter (fun x => String.leb a (timestamp x) && String.leb (timestamp x) b) t)
    /\ (forall x, In x rows <->
                  In x t /\ String.leb a (timestamp x) = true
                         /\ String.leb (timestamp x) b = true)
    /\ StronglySorted ts_le rows
    /\ let entries_text :=
         String.concat nl
           (map (fun x => timestamp x ++ ": " ++ match description x with
                                                 | Some d => d
                                                 | None => "None"
                                                 end) rows) in
       let messages := [ {| role := "system"; content := system_prompt |};
                         {| role := "user"; content := question |};
                         {| role := "user"; content := entries_text |} ] in
       (rows = [] -> entries_text = "")
       /\ Eff.log r = [ChatRequest (openai_model cfg) messages]
       /\ Eff.st r = t
       /\ (forall c cs, chat w messages = Ok {| choices := c :: cs |} ->
             Eff.val r = Ok (QueryPage question c entries_text)).
Proof.
  intros Hm Hq H1 H2 H3 H4 Hc a b r.
  exists (select_between a b t).
  split; [exact (select_between_perm a b t) |].
  split; [apply select_between_In |].
  split; [apply select_between_sorted |].
  cbv zeta.
  split; [intro E; now rewrite E |].
  assert (R : r = Eff.Out
                    (match chat w
                             [ {| role := "system"; content := system_prompt |};
                               {| role := "user"; content := question |};
                               {| role := "user";
                                  content := entries_text_of
                                    (map (fun x => (timestamp x, description x))
                                         (select_between a b t)) |} ] with
                     | Raise e => Raise e
                     | Ok completion =>
                         match choices completion with
                         | c :: _ => Ok (QueryPage question c
                                          (entries_text_of
                                             (map (fun x => (timestamp x, description x))
                                                  (select_between a b t))))
                         | [] => Raise IndexError
                         end
                     end) t
                    [ChatRequest (openai_model cfg)
                       [ {| role := "system"; content := system_prompt |};
                         {| role := "user"; content := question |};
                         {| role := "user";
                            content := entries_text_of
                              (map (fun x => (timestamp x, description x))
                                   (select_between a b t)) |} ]]).
  { subst r. unfold query. rewrite Hm. cbv beta iota.
    rewrite Hq. eff_step. rewrite H1. eff_step. rewrite H2. eff_step.
    rewrite H3. eff_step. rewrite H4. eff_step. eff_step.
    fold a. fold b. unfold ask_gpt4. eff_step. rewrite Hc. eff_step. eff_step.
    eff_step.
    destruct (chat w _) as [[[| c cs]] | e]; repeat eff_step; reflexivity. }
  assert (T : entries_text_of (map (fun x => (timestamp x, description x))
                                   (select_between a b t))
              = String.concat nl
                  (map (fun x => timestamp x ++ ": " ++ match description x with
                                                        | Some d => d
                                                        | None => "None"
                                                        end) (select_between a b t))).
  { unfold entries_text_of. rewrite map_map. reflexivity. }
  rewrite T in R. rewrite R. cbn [Eff.log Eff.st Eff.val].
  split; [reflexivity |]. split; [reflexivity |].
  intros c cs Hchat. rewrite Hchat. reflexivity.
Qed.

Lemma query_asks_once_witness :
  let req := Sample.post [("question", "What room was it?");
                          ("start_date", "2024-05-01"); ("start_time", "09:00");
                          ("end_date", "2024-05-01"); ("end_time", "11:00")] in
  let w := Sample.world_of (fun _ => Ok (Sample.reply (Str "kitchen"))) in
  let r := query Sample.config w req
                 [Sample.kitchen; Sample.study; Sample.garden] in
  let entries_text := "2024-05-01 10:00:00: kitchen" ++ nl ++ "2024-05-01 10:30:00: None" in
  Eff.log r = [ChatRequest (Str "gpt-4o")
                 [ {| role := "system"; content := system_prompt |};
                   {| role := "user"; content := "What room was it?" |};
                   {| role := "user"; content := entries_text |} ]]
  /\ Eff.val r = Ok (QueryPage "What room was it?" (Some "A kitchen, around ten.")
                               entries_text).
Proof.
  cbv zeta.
  destruct (query_asks_once Sample.config
              (Sample.world_of (fun _ => Ok (Sample.reply (Str "kitchen"))))
              (Sample.post [("question", "What room was it?");
                            ("start_date", "2024-05-01"); ("start_time", "09:00");
                            ("end_date", "2024-05-01"); ("end_time", "11:00")])
              [Sample.kitchen; Sample.study; Sample.garden]
              "What room was it?" "2024-05-01" "09:00" "2024-05-01" "11:00"
              eq_refl eq_refl eq_refl eq_refl eq_refl eq_refl eq_refl)
    as (rows & P & _ & S & H).
  assert (E : rows = [Sample.kitchen; Sample.study]).
  { apply Permutation_sym in P. vm_compute filter in P.
    apply Permutation_length_2_inv in P. destruct P as [E | E]; [exact E |].
    subst rows. inversion S as [| x l _ F]; subst.
    inversion F as [| y l' L _]; subst. vm_compute in L. discriminate L. }
  subst rows. cbv zeta in H. destruct H as (_ & L & _ & V).
  split; [exact L | exact (V _ _ eq_refl)].
Defined.

(** ** Ids *)

(** C6, as stated, fails: the first upload gets id 1; once its row is
    deleted, the next upload gets id 1 again. *)
Lemma deleted_id_assigned_again :
  let w := Sample.world_of (fun _ => Ok (Sample.reply (Str "kitchen"))) in
  let t1 := step decimal_rowid Sample.config (AddContent w (Sample.upload "")) [] in
  let t2 := step decimal_rowid Sample.config
              (ManageContents (Sample.post [("start_date", ""); ("start_time", "");
                                            ("end_date", ""); ("end_time", "");
                                            ("content_id", "1")])) t1 in
  let t3 := step decimal_rowid Sample.config (AddContent w (Sample.upload "")) t2 in
  map id t1 = [1] /\ t2 = [] /\ map id t3 = [1].
Proof. cbv zeta. repeat split. Qed.

Lemma ids_within_filter (f : row -> bool) (k : Z) (t : table) :
  ids_within k t -> ids_within k (filter f t).
Proof.
  intros [S B]. split.
  - clear B. induction t as [| r t IH]; cbn; [constructor |].
    cbn in S. apply StronglySorted_inv in S. destruct S as [S F].
    destruct (f r); cbn; [| now apply IH].
    constructor; [now apply IH |].
    rewrite Forall_forall in *. intros x Hx. apply F.
    apply in_map_iff in Hx. destruct Hx as (y & <- & Hy).
    apply filter_In in Hy. apply in_map. tauto.
  - rewrite Forall_forall in *. intros x Hx. apply filter_In in Hx. apply B. tauto.
Qed.

Lemma max_rowid_ge (t : table) : Forall (fun r => id r <= max_rowid t) t.
Proof.
  destruct t as [| r t]; [constructor |]. cbn.
  induction t as [| r' t IH]; cbn.
  - constructor; [lia | constructor].
  - apply Forall_cons_iff in IH. destruct IH as [H0 IH].
    constructor; [lia |]. constructor; [lia |].
    eapply Forall_impl; [| exact IH]. cbn. intros; lia.
Qed.

Lemma max_rowid_le (k : Z) (t : table) :
  0 <= k -> Forall (fun r => id r <= k) t -> max_rowid t <= k.
Proof.
  intros Hk F. destruct t as [| r t]; [exact Hk |]. cbn.
  apply Forall_cons_iff in F. destruct F as [H0 F].
  induction F as [| r' t H1 F IH]; cbn; lia.
Qed.

Lemma insert_row_last (r : row) (t : table) :
  Forall (fun x => id x < id r) t -> insert_row r t = (t ++ [r])%list.
Proof.
  induction 1 as [| x t Hx F IH]; cbn; [reflexivity |].
  destruct (id r <? id x) eqn:L; [lia |]. now rewrite IH.
Qed.

Lemma new_rowid_next (probes : list Z) (t : table) :
  max_rowid t < MAX_ROWID -> new_rowid probes t = Some (max_rowid t + 1).
Proof.
  intro H. destruct t as [| r t]; [reflexivity |].
  unfold new_rowid. destruct (max_rowid (r :: t) <? MAX_ROWID) eqn:L; [reflexivity | lia].
Qed.

(** What [/add_content] leaves: the table with one more row, under the id
    that comes next, when it answers [Content added successfully], and the
    table as it was otherwise. *)
Lemma add_content_state (cfg : config_t) (w : world) (req : request) (t : table) :
  let r := add_content cfg w req t in
  (Eff.val r = Ok content_added
   /\ exists x, new_rowid (rowid_probes w) t = Some (id x) /\ Eff.st r = insert_row x t)
  \/ (Eff.val r <> Ok content_added /\ Eff.st r = t).
Proof.
  cbv zeta. unfold add_content, analyze_image, execute_insert.
  unfold Eff.bind, Eff.after, Eff.lift, Eff.emit, Eff.get, Eff.put, Eff.ret, Eff.raise.
  cbn.
  destruct (getitem (json req) "image") as [im | e]; cbn; [| right; split; congruence].
  destruct (vision w im) as [temp | e]; cbn; [| right; split; congruence].
  destruct (content_of temp) as [d | e]; cbn;
    [| right; split; [unfold content_added; congruence | reflexivity]].
  destruct (Py.get (json req) "deviceid" (Str "Unknown")) as [dv | e]; cbn;
    [| right; split; congruence].
  destruct (bind_text im) as [i | e]; cbn; [| right; split; congruence].
  destruct (bind_text d) as [c | e]; cbn; [| right; split; congruence].
  destruct (bind_text dv) as [v | e]; cbn; [| right; split; congruence].
  destruct (new_rowid (rowid_probes w) t) as [n |]; cbn; [| right; split; congruence].
  left. split; [reflexivity |]. eexists. split; [| reflexivity]. reflexivity.
Qed.

Lemma manage_contents_state (rowid_of_text : string -> option Z) (req : request) (t : table) :
  exists f, Eff.st (manage_contents rowid_of_text req t) = filter f t.
Proof.
  unfold manage_contents, local.
  unfold Eff.bind, Eff.after, Eff.lift, Eff.get, Eff.ret, Eff.raise.
  destruct (method req); [exists (fun _ => true); cbn; now rewrite filter_all |].
  destruct (form_item (form req) "start_date");
    [| exists (fun _ => true); cbn; now rewrite filter_all].
  destruct (form_item (form req) "start_time");
    [| exists (fun _ => true); cbn; now rewrite filter_all].
  destruct (form_item (form req) "end_date");
    [| exists (fun _ => true); cbn; now rewrite filter_all].
  destruct (form_item (form req) "end_time");
    [| exists (fun _ => true); cbn; now rewrite filter_all].
  rewrite for_each_delete. cbn. eauto.
Qed.

Lemma ids_within_weaken (k k' : Z) (t : table) :
  k <= k' -> ids_within k t -> ids_within k' t.
Proof.
  intros L [S B]. split; [exact S |].
  eapply Forall_impl; [| exact B]. cbn. intros; lia.
Qed.

Lemma ids_within_step (rowid_of_text : string -> option Z) (cfg : config_t)
                      (o : op) (k : Z) (t : table) :
  0 <= k < MAX_ROWID -> ids_within k t ->
  ids_within (k + 1) (step rowid_of_text cfg o t).
Proof.
  intros Hk W. destruct o as [w req | req]; cbn [step].
  - pose proof (add_content_state cfg w req t) as C. cbv zeta in C.
    destruct C as [(_ & x & Hn & ->) | (_ & ->)];
      [| apply (ids_within_weaken k); [lia | exact W]].
    destruct W as [S B].
    assert (M : max_rowid t <= k).
    { apply max_rowid_le; [lia |]. eapply Forall_impl; [| exact B]. cbn. intros; lia. }
    rewrite new_rowid_next in Hn by lia. injection Hn as Hn.
    assert (F : Forall (fun y => id y < id x) t).
    { eapply Forall_impl; [| apply max_rowid_ge]. cbn. intros; lia. }
    rewrite insert_row_last by exact F.
    assert (P : 0 <= max_rowid t).
    { destruct t as [| r0 t0]; [cbn; lia |].
      pose proof (max_rowid_ge (r0 :: t0)) as G.
      apply Forall_cons_iff in G. apply Forall_cons_iff in B. lia. }
    split.
    + rewrite map_app. cbn. clear B M Hn P. revert F.
      induction t as [| r0 t0 IH]; cbn; intro F.
      * repeat constructor.
      * cbn in S. apply StronglySorted_inv in S. destruct S as [S F0].
        apply Forall_cons_iff in F. destruct F as [Fx F].
        constructor; [now apply IH |].
        apply Forall_app. split; [exact F0 | now constructor].
    + apply Forall_app. split.
      * eapply Forall_impl; [| exact B]. cbn. intros; lia.
      * constructor; [lia | constructor].
  - destruct (manage_contents_state rowid_of_text req t) as [f ->].
    apply (ids_within_weaken k); [lia |]. now apply ids_within_filter.
Qed.

Lemma ids_within_run (rowid_of_text : string -> option Z) (cfg : config_t)
                     (ops : list op) (k : Z) (t : table) :
  0 <= k -> k + Z.of_nat (List.length ops) <= MAX_ROWID -> ids_within k t ->
  ids_within (k + Z.of_nat (List.length ops)) (run rowid_of_text cfg ops t).
Proof.
  revert k t. induction ops as [| o ops IH]; intros k t Hk L W.
  - cbn. now rewrite Z.add_0_r.
  - cbn [run fold_left]. cbn [List.length] in *.
    replace (k + Z.of_nat (S (List.length ops))) with ((k + 1) + Z.of_nat (List.length ops)) in * by lia.
    apply IH; [lia | lia |].
    apply ids_within_step; [lia | exact W].
Qed.

(** C6 (amended).  After any series of uploads and deletions on a table
    that started empty (fewer than 2^63 - 1 of them), an upload that
    succeeds adds its row under an id strictly greater than the id of
    every row then in the table: one more than the largest of them, 1 when
    the table is empty.  Ids of deleted rows are not kept track of. *)
Theorem insert_id_above_stored (rowid_of_text : string -> option Z) (cfg : config_t)
    (ops : list op) (w : world) (req : request) :
  Z.of_nat (List.length ops) < MAX_ROWID ->
  let t := run rowid_of_text cfg ops [] in
  let r := add_content cfg w req t in
  Eff.val r = Ok content_added ->
  exists x, Eff.st r = (t ++ [x])%list
            /\ id x = max_rowid t + 1
            /\ forall y, In y t -> id y < id x.
Proof.
  intros L t r Hv.
  assert (W : ids_within (0 + Z.of_nat (List.length ops)) t).
  { apply ids_within_run; [lia | lia |]. split; constructor. }
  destruct W as [S B].
  assert (M : max_rowid t <= 0 + Z.of_nat (List.length ops)).
  { apply max_rowid_le; [lia |]. eapply Forall_impl; [| exact B]. cbn. intros; lia. }
  pose proof (add_content_state cfg w req t) as C. cbv zeta in C.
  destruct C as [(_ & x & Hn & Hs) | (Hne & _)]; [| contradiction].
  rewrite new_rowid_next in Hn by lia. injection Hn as Hn.
  assert (F : Forall (fun y => id y < id x) t).
  { eapply Forall_impl; [| apply max_rowid_ge]. cbn. intros; lia. }
  exists x. split; [| split].
  - subst r. rewrite Hs. now apply insert_row_last.
  - now symmetry.
  - now apply Forall_forall.
Qed.

Lemma insert_id_above_stored_witness :
  let w := Sample.world_of (fun _ => Ok (Sample.reply (Str "kitchen"))) in
  let t := run decimal_rowid Sample.config [AddContent w (Sample.upload "")] [] in
  exists x, Eff.st (add_content Sample.config w (Sample.upload "") t) = (t ++ [x])%list
            /\ id x = max_rowid t + 1
            /\ forall y, In y t -> id y < id x.
Proof.
  cbv zeta.
  apply (insert_id_above_stored decimal_rowid Sample.config
           [AddContent (Sample.world_of (fun _ => Ok (Sample.reply (Str "kitchen"))))
                       (Sample.upload "")]
           (Sample.world_of (fun _ => Ok (Sample.reply (Str "kitchen"))))
           (Sample.upload "")).
  - reflexivity.
  - reflexivity.
Defined.

(** ** Uploads and the listing *)

(** All the steps of a computation whose heads are known. *)
Ltac eff_run :=
  cbv beta iota zeta;
  repeat (first [ rewrite EffFacts.bind_assoc
                | rewrite EffFacts.bind_lift_ok
                | rewrite EffFacts.bind_lift_raise
                | rewrite EffFacts.bind_ret
                | rewrite EffFacts.bind_raise
                | rewrite EffFacts.bind_get
                | rewrite EffFacts.bind_put
                | rewrite EffFacts.bind_gets
                | rewrite EffFacts.bind_modify
                | rewrite EffFacts.bind_emit ];
          cbv beta iota zeta).

Lemma In_insert_row_new (r : row) (t : table) : In r (insert_row r t).
Proof.
  induction t as [| r' t IH]; cbn; [now left |].
  destruct (id r <? id r'); cbn; auto.
Qed.

Lemma In_insert_row_old (r x : row) (t : table) : In x t -> In x (insert_row r t).
Proof.
  induction t as [| r' t IH]; cbn; [contradiction |].
  destruct (id r <? id r'); cbn; intros [<- | H]; auto.
Qed.

Lemma length_insert_row (r : row) (t : table) :
  List.length (insert_row r t) = S (List.length t).
Proof.
  induction t as [| r' t IH]; cbn; [reflexivity |].
  destruct (id r <? id r'); cbn; [reflexivity | now rewrite IH].
Qed.

(** An upload whose every step succeeds. *)
Lemma add_content_stores (cfg : config_t) (w : world) (req : request) (t : table)
    (image_ temp description_ dv : value) (i d v : cell) (n : Z) :
  getitem (json req) "image" = Ok image_ ->
  vision w image_ = Ok temp ->
  content_of temp = Ok description_ ->
  Py.get (json req) "deviceid" (Str "Unknown") = Ok dv ->
  bind_text image_ = Ok i ->
  bind_text description_ = Ok d ->
  bind_text dv = Ok v ->
  new_rowid (rowid_probes w) t = Some n ->
  add_content cfg w req t
  = Eff.Out (Ok content_added)
            (insert_row {| id := n; image := i; description := d;
                           timestamp := now w; deviceid := v |} t)
            [VisionRequest (openai_model cfg) vision_prompt image_ (max_tokens cfg)].
Proof.
  intros H1 H2 H3 H4 H5 H6 H7 H8.
  unfold add_content, analyze_image, execute_insert. cbv beta zeta.
  rewrite H1. eff_run. rewrite H2. eff_run. rewrite H3. eff_run.
  rewrite H4. eff_run. rewrite H5. eff_run. rewrite H6. eff_run.
  rewrite H7. eff_run. rewrite H8. eff_run.
  reflexivity.
Qed.

Lemma fold_append_map {A B} (f : A -> B) (l : list A) (acc : list B) :
  fold_left (fun a x => a ++ [f x])%list l acc = (acc ++ map f l)%list.
Proof.
  revert acc. induction l as [| x l IH]; intro acc; cbn.
  - now rewrite app_nil_r.
  - rewrite IH, <- app_assoc. reflexivity.
Qed.

Lemma get_contents_out (t : table) :
  get_contents t = Eff.Out (Ok (Jsonify (List (map row_dict t)) 200)) t [].
Proof.
  unfold get_contents. eff_step. now rewrite fold_append_map.
Qed.

(** What an upload leaves, whatever happens: the table as it was, or the
    table with one more row, stamped with the server's clock; and at most
    one request to the provider. *)
Lemma add_content_row (cfg : config_t) (w : world) (req : request) (t : table) :
  let r := add_content cfg w req t in
  (Eff.st r = t
   \/ exists n i d v, Eff.st r = insert_row {| id := n; image := i; description := d;
                                              timestamp := now w; deviceid := v |} t)
  /\ (List.length (Eff.log r) <= 1)%nat.
Proof.
  cbv zeta. unfold add_content, analyze_image, execute_insert.
  unfold Eff.bind, Eff.after, Eff.lift, Eff.emit, Eff.get, Eff.put, Eff.ret, Eff.raise.
  cbn.
  destruct (getitem (json req) "image") as [im | e]; cbn; [| auto].
  destruct (vision w im) as [temp | e]; cbn; [| auto].
  destruct (content_of temp) as [d | e]; cbn; [| auto].
  destruct (Py.get (json req) "deviceid" (Str "Unknown")) as [dv | e]; cbn; [| auto].
  destruct (bind_text im) as [i | e]; cbn; [| auto].
  destruct (bind_text d) as [c | e]; cbn; [| auto].
  destruct (bind_text dv) as [v | e]; cbn; [| auto].
  destruct (new_rowid (rowid_probes w) t) as [n |]; cbn; [| auto].
  split; [right; eauto 6 | auto].
Qed.

(** X1.  An upload whose image and device id are texts, for which the
    provider yields a text and an id is free, is found in the listing of
    [/get_contents] that follows: an object with the new id, the image and
    the device id as sent, the provider's text and the server's time.  The
    listing has one object more than the table had rows, changes nothing
    and calls nothing. *)
Theorem upload_then_listed (cfg : config_t) (w : world) (req : request) (t : table)
    (img dev c : string) (temp : value) (n : Z) :
  getitem (json req) "image" = Ok (Str img) ->
  Py.get (json req) "deviceid" (Str "Unknown") = Ok (Str dev) ->
  vision w (Str img) = Ok temp ->
  content_of temp = Ok (Str c) ->
  new_rowid (rowid_probes w) t = Some n ->
  let t' := Eff.st (add_content cfg w req t) in
  let r := get_contents t' in
  exists l, Eff.val r = Ok (Jsonify (List l) 200)
            /\ In (Dict [("id", Int n); ("image", Str img); ("description", Str c);
                         ("timestamp", Str (now w)); ("deviceid", Str dev)]) l
            /\ List.length l = S (List.length t)
            /\ Eff.st r = t' /\ Eff.log r = [].
Proof.
  intros H1 H2 H3 H4 H5 t' r. subst r t'.
  rewrite (add_content_stores cfg w req t _ _ _ _ _ _ _ n H1 H3 H4 H2
             eq_refl eq_refl eq_refl H5).
  cbn [Eff.st]. rewrite get_contents_out. cbn [Eff.val Eff.st Eff.log].
  eexists. split; [reflexivity |]. split; [| split; [| split; reflexivity]].
  - exact (in_map row_dict _
             {| id := n; image := Some img; description := Some c;
                timestamp := now w; deviceid := Some dev |}
             (In_insert_row_new _ t)).
  - now rewrite length_map, length_insert_row.
Qed.

Lemma upload_then_listed_witness :
  let w := Sample.world_of (fun _ => Ok (Sample.reply (Str "kitchen"))) in
  let t' := Eff.st (add_content Sample.config w (Sample.upload "") []) in
  exists l, Eff.val (get_contents t') = Ok (Jsonify (List l) 200)
            /\ In (Dict [("id", Int 1); ("image", Str "aGVsbG8=");
                         ("description", Str "kitchen");
                         ("timestamp", Str "2024-05-01 10:00:00");
                         ("deviceid", Str "192.168.1.20")]) l
            /\ List.length l = 1%nat
            /\ Eff.st (get_contents t') = t' /\ Eff.log (get_contents t') = [].
Proof.
  exact (upload_then_listed Sample.config
           (Sample.world_of (fun _ => Ok (Sample.reply (Str "kitchen"))))
           (Sample.upload "") [] "aGVsbG8=" "192.168.1.20" "kitchen"
           (Sample.reply (Str "kitchen")) 1 eq_refl eq_refl eq_refl eq_refl eq_refl).
Defined.

(** X2.  An upload without a [deviceid] key is stored with the device id
    [Unknown]; the same upload with [deviceid] set to null is stored with
    no device id (NULL), not with [Unknown]. *)
Theorem deviceid_defaults_to_unknown (cfg : config_t) (w : world) (t : table)
    (fields : list (string * value)) (image_ temp description_ : value)
    (i d : cell) (n : Z) :
  lookup "image" fields = Some image_ ->
  lookup "deviceid" fields = None ->
  vision w image_ = Ok temp ->
  content_of temp = Ok description_ ->
  bind_text image_ = Ok i ->
  bind_text description_ = Ok d ->
  new_rowid (rowid_probes w) t = Some n ->
  let upload x := {| method := POST; form := []; args := []; json := Dict x |} in
  Eff.st (add_content cfg w (upload fields) t)
  = insert_row {| id := n; image := i; description := d; timestamp := now w;
                  deviceid := Some "Unknown" |} t
  /\ Eff.st (add_content cfg w (upload (("deviceid", None_) :: fields)) t)
     = insert_row {| id := n; image := i; description := d; timestamp := now w;
                     deviceid := None |} t.
Proof.
  intros H1 H2 H3 H4 H5 H6 H7 upload. subst upload. split.
  - rewrite (add_content_stores cfg w _ t image_ temp description_ (Str "Unknown")
               i d (Some "Unknown") n); try assumption; try reflexivity.
    + cbn. now rewrite H1.
    + cbn. now rewrite H2.
  - rewrite (add_content_stores cfg w _ t image_ temp description_ None_
               i d None n); try assumption; try reflexivity.
    cbn. now rewrite H1.
Qed.

Lemma deviceid_defaults_to_unknown_witness :
  let w := Sample.world_of (fun _ => Ok (Sample.reply (Str "kitchen"))) in
  let upload x := {| method := POST; form := []; args := []; json := Dict x |} in
  map deviceid (Eff.st (add_content Sample.config w
                          (upload [("image", Str "aGVsbG8=")]) [])) = [Some "Unknown"]
  /\ map deviceid (Eff.st (add_content Sample.config w
                          (upload [("deviceid", None_); ("image", Str "aGVsbG8=")]) []))
     = [None].
Proof.
  cbv zeta.
  destruct (deviceid_defaults_to_unknown Sample.config
              (Sample.world_of (fun _ => Ok (Sample.reply (Str "kitchen")))) []
              [("image", Str "aGVsbG8=")] (Str "aGVsbG8=")
              (Sample.reply (Str "kitchen")) (Str "kitchen")
              (Some "aGVsbG8=") (Some "kitchen") 1
              eq_refl eq_refl eq_refl eq_refl eq_refl eq_refl eq_refl) as [H1 H2].
  cbv zeta in H1, H2. rewrite H1, H2. split; reflexivity.
Defined.

(** X3.  An upload whose body is an object without an [image] key raises
    the missing-key error, and one whose body is not an object the type
    error; in both cases before anything else is done: no request goes to
    the provider and the table is left as it was.  With the key present
    the provider is asked first. *)
Theorem add_content_without_image (cfg : config_t) (w : world) (req : request)
                                  (t : table) :
  let r := add_content cfg w req t in
  match json req with
  | Dict d =>
      match lookup "image" d with
      | None => r = Eff.Out (Raise KeyError) t []
      | Some image_ =>
          exists l, Eff.log r = VisionRequest (openai_model cfg) vision_prompt image_
                                              (max_tokens cfg) :: l
      end
  | _ => r = Eff.Out (Raise TypeError) t []
  end.
Proof.
  cbv zeta. unfold add_content, analyze_image. cbv beta zeta.
  destruct (json req) as [| b | z | s | l | d]; try reflexivity.
  cbn [getitem]. destruct (lookup "image" d) as [image_ |]; [| reflexivity].
  eff_run. match goal with |- context [match ?x with Eff.Out _ _ _ => _ end] =>
    destruct x as [v s2 l2] end.
  cbn. eauto.
Qed.

(** X4.  Whatever the upload and whatever the outside answers, an upload
    removes no row and changes none: every row of the table is still
    there, at most one row is added, at most one request goes to the
    provider, and without the answer [Content added successfully] the
    table is as it was. *)
Theorem add_content_only_adds (cfg : config_t) (w : world) (req : request) (t : table) :
  let r := add_content cfg w req t in
  (forall x, In x t -> In x (Eff.st r))
  /\ (List.length t <= List.length (Eff.st r) <= S (List.length t))%nat
  /\ (List.length (Eff.log r) <= 1)%nat
  /\ (Eff.val r = Ok content_added \/ Eff.st r = t).
Proof.
  intro r. pose proof (add_content_row cfg w req t) as [R L].
  pose proof (add_content_state cfg w req t) as C. cbv zeta in C. fold r in R, L, C.
  split; [| split; [| split]].
  - intros x Hx. destruct R as [-> | (n & i & d & v & ->)]; [exact Hx |].
    now apply In_insert_row_old.
  - destruct R as [-> | (n & i & d & v & ->)]; [lia |].
    rewrite length_insert_row. lia.
  - exact L.
  - destruct C as [[C _] | [_ C]]; auto.
Qed.

(** X5.  The upload is stamped by the server: a field of the body other
    than [image] and [deviceid] (a [timestamp] sent by the client, say)
    changes nothing to what the upload does, and a row that the upload adds
    has the time of the server's clock as its timestamp. *)
Theorem add_content_stamps (cfg : config_t) (w : world) (t : table)
    (fields : list (string * value)) (k : string) (x : value) :
  k <> "image" -> k <> "deviceid" ->
  let upload f := {| method := POST; form := []; args := []; json := Dict f |} in
  add_content cfg w (upload ((k, x) :: fields)) t = add_content cfg w (upload fields) t
  /\ forall y, In y (Eff.st (add_content cfg w (upload fields) t)) ->
               In y t \/ timestamp y = now w.
Proof.
  intros Hi Hd upload. subst upload. split.
  - unfold add_content. cbn [json getitem Py.get lookup].
    assert (E1 : String.eqb "image" k = false) by (apply String.eqb_neq; congruence).
    assert (E2 : String.eqb "deviceid" k = false) by (apply String.eqb_neq; congruence).
    now rewrite E1, E2.
  - intros y Hy.
    destruct (add_content_row cfg w
                {| method := POST; form := []; args := []; json := Dict fields |} t)
      as [[R | (n & i & d & v & R)] _]; rewrite R in Hy; [now left |].
    apply In_insert_row in Hy. destruct Hy as [-> | Hy]; [now right | now left].
Qed.

Lemma add_content_stamps_witness :
  let w := Sample.world_of (fun _ => Ok (Sample.reply (Str "kitchen"))) in
  let upload f := {| method := POST; form := []; args := []; json := Dict f |} in
  map timestamp
      (Eff.st (add_content Sample.config w
                 (upload (("timestamp", Str "1999-12-31 23:59:59") :: Sample.upload_fields))
                 []))
  = ["2024-05-01 10:00:00"].
Proof.
  pose proof (add_content_stamps Sample.config
                (Sample.world_of (fun _ => Ok (Sample.reply (Str "kitchen")))) []
                Sample.upload_fields "timestamp" (Str "1999-12-31 23:59:59")
                ltac:(discriminate) ltac:(discriminate)) as H.
  cbv beta zeta in H. destruct H as [H _].
  cbv beta zeta. rewrite H. reflexivity.
Defined.

(** ** Deletions *)

(** The whole outcome of [/contents]. *)
Lemma manage_contents_out (rowid_of_text : string -> option Z) (req : request) (t : table) :
  let include_images := String.eqb (args_get (args req) "i" "0") "1" in
  manage_contents rowid_of_text req t
  = match method req with
    | GET => Eff.Out (Ok (ContentsPage include_images t)) t []
    | POST =>
      match form_item (form req) "start_date", form_item (form req) "start_time",
            form_item (form req) "end_date", form_item (form req) "end_time" with
      | Ok sd, Ok st_, Ok ed, Ok et =>
          let t' := filter (fun x => negb (listed rowid_of_text
                                             (getlist (form req) "content_id") x)) t in
          Eff.Out (Ok (ContentsPage include_images
                         (select_between (sd ++ " " ++ st_) (ed ++ " " ++ et) t'))) t' []
      | _, _, _, _ => Eff.Out (Raise BadRequestKeyError) t []
      end
    end.
Proof.
  cbv zeta. unfold manage_contents, local.
  unfold Eff.bind, Eff.after, Eff.lift, Eff.get, Eff.ret, Eff.raise.
  destruct (method req); [reflexivity |].
  destruct (form_item (form req) "start_date") as [sd | e] eqn:F1;
    [| apply form_item_raises in F1; now subst].
  destruct (form_item (form req) "start_time") as [st_ | e] eqn:F2;
    [| apply form_item_raises in F2; now subst].
  destruct (form_item (form req) "end_date") as [ed | e] eqn:F3;
    [| apply form_item_raises in F3; now subst].
  destruct (form_item (form req) "end_time") as [et | e] eqn:F4;
    [| apply form_item_raises in F4; now subst].
  rewrite for_each_delete. reflexivity.
Qed.

Lemma manage_contents_st (rowid_of_text : string -> option Z) (req : request) (t : table) :
  Eff.st (manage_contents rowid_of_text req t)
  = if deletes req
    then filter (fun x => negb (listed rowid_of_text (getlist (form req) "content_id") x)) t
    else t.
Proof.
  pose proof (manage_contents_out rowid_of_text req t) as H. cbv zeta in H.
  rewrite H. unfold deletes, has_field. cbn [forallb].
  destruct (method req); [reflexivity |].
  destruct (form_item (form req) "start_date"); [| reflexivity].
  destruct (form_item (form req) "start_time"); [| reflexivity].
  destruct (form_item (form req) "end_date"); [| reflexivity].
  destruct (form_item (form req) "end_time"); reflexivity.
Qed.

(** X6.  Sending the same request to [/contents] again, on the table the
    first one left, deletes nothing more and shows the same page: a row
    already deleted is looked for and not found, without error. *)
Theorem manage_contents_again (rowid_of_text : string -> option Z)
                              (req : request) (t : table) :
  manage_contents rowid_of_text req (Eff.st (manage_contents rowid_of_text req t))
  = manage_contents rowid_of_text req t.
Proof.
  pose proof (manage_contents_out rowid_of_text req t) as H. cbv zeta in H.
  pose proof (manage_contents_out rowid_of_text req
                (Eff.st (manage_contents rowid_of_text req t))) as H'.
  cbv zeta in H'. rewrite H'. clear H'. rewrite H.
  destruct (method req); [reflexivity |].
  destruct (form_item (form req) "start_date"); [| reflexivity].
  destruct (form_item (form req) "start_time"); [| reflexivity].
  destruct (form_item (form req) "end_date"); [| reflexivity].
  destruct (form_item (form req) "end_time"); [| reflexivity].
  cbn [Eff.st]. rewrite filter_twice.
  rewrite (filter_ext _ (fun x => negb (listed rowid_of_text
                                          (getlist (form req) "content_id") x)));
    [reflexivity |].
  intro x. apply andb_diag.
Qed.

(** X7.  When none of the listed [content_id] texts denotes the id of a
    stored row (ids that are not there, texts that are no number), the
    request is served all the same and the table is left as it was. *)
Theorem absent_ids_ignored (rowid_of_text : string -> option Z)
                           (req : request) (t : table) :
  Forall (fun x => listed rowid_of_text (getlist (form req) "content_id") x = false) t ->
  Eff.st (manage_contents rowid_of_text req t) = t
  /\ (deletes req = true -> exists p, Eff.val (manage_contents rowid_of_text req t) = Ok p).
Proof.
  intro F. split.
  - rewrite manage_contents_st. destruct (deletes req); [| reflexivity].
    induction F as [| x t Hx F IH]; cbn; [reflexivity |].
    rewrite Hx. cbn. now rewrite IH.
  - intro D. pose proof (manage_contents_out rowid_of_text req t) as H. cbv zeta in H.
    rewrite H. unfold deletes, has_field in D. cbn [forallb] in D.
    destruct (method req); [discriminate |].
    destruct (form_item (form req) "start_date"); [| discriminate].
    destruct (form_item (form req) "start_time"); [| discriminate].
    destruct (form_item (form req) "end_date"); [| discriminate].
    destruct (form_item (form req) "end_time"); [| discriminate].
    cbn. eauto.
Qed.

Lemma absent_ids_ignored_witness :
  let req := Sample.post [("start_date", "2024-05-01"); ("start_time", "00:00");
                          ("end_date", "2024-05-02"); ("end_time", "00:00");
                          ("content_id", "7"); ("content_id", "seven")] in
  Eff.st (manage_contents decimal_rowid req [Sample.kitchen]) = [Sample.kitchen].
Proof.
  refine (proj1 (absent_ids_ignored decimal_rowid _ [Sample.kitchen] _)).
  repeat constructor.
Defined.

(** ** The invariant of the ids *)

Lemma sorted_lt_NoDup (l : list Z) : StronglySorted Z.lt l -> NoDup l.
Proof.
  induction 1 as [| x l S IH F]; constructor; [| exact IH].
  intro Hx. rewrite Forall_forall in F. specialize (F x Hx). lia.
Qed.

(** X8.  After any series of uploads and deletions on a table that
    started empty (fewer than 2^63 - 1 of them), the ids of the stored rows
    are pairwise distinct, the rows are in ascending order of id, and every
    id lies between 1 and the number of requests made. *)
Theorem stored_ids_distinct (rowid_of_text : string -> option Z) (cfg : config_t)
                            (ops : list op) :
  Z.of_nat (List.length ops) < MAX_ROWID ->
  let t := run rowid_of_text cfg ops [] in
  NoDup (map id t)
  /\ StronglySorted Z.lt (map id t)
  /\ Forall (fun r => 1 <= id r <= Z.of_nat (List.length ops)) t.
Proof.
  intros L t.
  destruct (ids_within_run rowid_of_text cfg ops 0 [] ltac:(lia) ltac:(lia)
              ltac:(split; constructor)) as [S B].
  fold t in S, B. split; [now apply sorted_lt_NoDup |]. split; [exact S |].
  exact B.
Qed.

Lemma stored_ids_distinct_witness :
  let w := Sample.world_of (fun _ => Ok (Sample.reply (Str "kitchen"))) in
  let t := run decimal_rowid Sample.config
             [AddContent w (Sample.upload ""); AddContent w (Sample.upload "")] [] in
  NoDup (map id t).
Proof.
  exact (proj1 (stored_ids_distinct decimal_rowid Sample.config
                  [AddContent (Sample.world_of (fun _ => Ok (Sample.reply (Str "kitchen"))))
                              (Sample.upload "");
                   AddContent (Sample.world_of (fun _ => Ok (Sample.reply (Str "kitchen"))))
                              (Sample.upload "")]
                  eq_refl)).
Defined.

(** ** Questions *)

(** The three turns sent with a question. *)
Lemma ask_gpt4_out (cfg : config_t) (w : world) (question entries_text : string)
                   (t : table) :
  let messages := [ {| role := "system"; content := system_prompt |};
                    {| role := "user"; content := question |};
                    {| role := "user"; content := entries_text |} ] in
  ask_gpt4 cfg w question entries_text t
  = match new_client w with
    | Raise e => Eff.Out (Raise e) t []
    | Ok _ =>
        Eff.Out (match chat w messages with
                 | Raise e => Raise e
                 | Ok completion =>
                     match choices completion with
                     | c :: _ => Ok c
                     | [] => Raise IndexError
                     end
                 end) t [ChatRequest (openai_model cfg) messages]
    end.
Proof.
  cbv zeta. unfold ask_gpt4.
  destruct (new_client w) as [u | e]; [| reflexivity].
  eff_run. destruct (chat w _) as [[[| c cs]] | e]; eff_run; reflexivity.
Qed.

(** A POST to [/query] that carries its five fields. *)
Lemma query_post (cfg : config_t) (w : world) (req : request) (t : table)
    (question sd st_ ed et : string) :
  method req = POST ->
  form_item (form req) "question" = Ok question ->
  form_item (form req) "start_date" = Ok sd ->
  form_item (form req) "start_time" = Ok st_ ->
  form_item (form req) "end_date" = Ok ed ->
  form_item (form req) "end_time" = Ok et ->
  let entries_text :=
    String.concat nl (map (fun x => timestamp x ++ ": " ++ format_cell (description x))
                          (select_between (sd ++ " " ++ st_) (ed ++ " " ++ et) t)) in
  query cfg w req t
  = Eff.bind (ask_gpt4 cfg w question entries_text)
             (fun response_text => Eff.ret (QueryPage question response_text entries_text)) t.
Proof.
  intros Hm Hq H1 H2 H3 H4 entries_text. unfold query. rewrite Hm.
  rewrite Hq, H1, H2, H3, H4. eff_run.
  unfold entries_text_of. rewrite map_map. reflexivity.
Qed.

Lemma has_field_false (f : list (string * string)) (k : string) :
  has_field f k = false -> form_item f k = Raise BadRequestKeyError.
Proof.
  unfold has_field. destruct (form_item f k) as [v | e] eqn:F; [discriminate |].
  intros _. apply form_item_raises in F. now subst.
Qed.

Lemma bind_ret_map {S E A B} (m : Eff.M S E A) (g : A -> B) (s : S) :
  Eff.bind m (fun x => Eff.ret (g x)) s
  = Eff.Out (match Eff.val (m s) with
             | Ok a => Ok (g a)
             | Raise e => Raise e
             end) (Eff.st (m s)) (Eff.log (m s)).
Proof.
  unfold Eff.bind, Eff.after, Eff.ret.
  destruct (m s) as [[a | e] s1 l1]; cbn; [| reflexivity].
  now rewrite app_nil_r.
Qed.

(** X9.  Whatever the request and whatever the outside answers, [/query]
    leaves the table as it was and makes at most one call to the model; a
    GET makes none and shows the empty page. *)
Theorem query_reads_only (cfg : config_t) (w : world) (req : request) (t : table) :
  let r := query cfg w req t in
  Eff.st r = t
  /\ (List.length (Eff.log r) <= 1)%nat
  /\ match method req with
     | GET => Eff.log r = [] /\ Eff.val r = Ok (QueryPage "" (Some "") "")
     | POST => True
     end.
Proof.
  cbv zeta. destruct (method req) eqn:Hm.
  - unfold query. rewrite Hm. cbn. auto.
  - destruct (form_item (form req) "question") as [q | e] eqn:F0;
      [| unfold query; rewrite Hm, F0; eff_run; cbn; auto].
    destruct (form_item (form req) "start_date") as [sd | e] eqn:F1;
      [| unfold query; rewrite Hm, F0, F1; eff_run; cbn; auto].
    destruct (form_item (form req) "start_time") as [st_ | e] eqn:F2;
      [| unfold query; rewrite Hm, F0, F1, F2; eff_run; cbn; auto].
    destruct (form_item (form req) "end_date") as [ed | e] eqn:F3;
      [| unfold query; rewrite Hm, F0, F1, F2, F3; eff_run; cbn; auto].
    destruct (form_item (form req) "end_time") as [et | e] eqn:F4;
      [| unfold query; rewrite Hm, F0, F1, F2, F3, F4; eff_run; cbn; auto].
    pose proof (query_post cfg w req t q sd st_ ed et Hm F0 F1 F2 F3 F4) as P.
    cbv zeta in P. rewrite P, bind_ret_map.
    match goal with |- context [ask_gpt4 cfg w ?x ?y t] =>
      pose proof (ask_gpt4_out cfg w x y t) as A end.
    cbv zeta in A. rewrite A.
    destruct (new_client w); cbn; auto.
Qed.

(** X10.  How a question fails.  For a POST that carries its five fields:
    when the client of the model cannot be built, its exception leaves the
    handler and no call is made; when the call raises, that exception
    leaves the handler; when the completion has no choice, the index error
    does; otherwise the page is rendered.  In the last three cases one call
    has been made, and in all of them the table is as it was. *)
Theorem query_failures (cfg : config_t) (w : world) (req : request) (t : table)
    (question sd st_ ed et : string) :
  method req = POST ->
  form_item (form req) "question" = Ok question ->
  form_item (form req) "start_date" = Ok sd ->
  form_item (form req) "start_time" = Ok st_ ->
  form_item (form req) "end_date" = Ok ed ->
  form_item (form req) "end_time" = Ok et ->
  let entries_text :=
    String.concat nl (map (fun x => timestamp x ++ ": " ++ format_cell (description x))
                          (select_between (sd ++ " " ++ st_) (ed ++ " " ++ et) t)) in
  let messages := [ {| role := "system"; content := system_prompt |};
                    {| role := "user"; content := question |};
                    {| role := "user"; content := entries_text |} ] in
  let r := query cfg w req t in
  match new_client w with
  | Raise e => r = Eff.Out (Raise e) t []
  | Ok _ =>
      Eff.st r = t
      /\ Eff.log r = [ChatRequest (openai_model cfg) messages]
      /\ Eff.val r = match chat w messages with
                     | Raise e => Raise e
                     | Ok completion =>
                         match choices completion with
                         | [] => Raise IndexError
                         | c :: _ => Ok (QueryPage question c entries_text)
                         end
                     end
  end.
Proof.
  intros Hm F0 F1 F2 F3 F4 entries_text messages r. subst r.
  pose proof (query_post cfg w req t question sd st_ ed et Hm F0 F1 F2 F3 F4) as P.
  cbv zeta in P. fold entries_text in P. rewrite P, bind_ret_map.
  pose proof (ask_gpt4_out cfg w question entries_text t) as A.
  cbv zeta in A. fold messages in A. rewrite A.
  destruct (new_client w) as [u | e]; [| reflexivity].
  cbn [Eff.val Eff.st Eff.log]. split; [reflexivity |]. split; [reflexivity |].
  destruct (chat w messages) as [[[| c cs]] | e]; reflexivity.
Qed.

Lemma query_failures_witness :
  let w := {| now := "2024-05-01 10:00:00";
              vision := fun _ => Ok Sample.refusal;
              new_client := Ok tt;
              chat := fun _ => Raise (LibraryError "openai.APIConnectionError");
              rowid_probes := [] |} in
  let req := Sample.post [("question", "What room was it?");
                          ("start_date", "2024-05-01"); ("start_time", "09:00");
                          ("end_date", "2024-05-01"); ("end_time", "11:00")] in
  let r := query Sample.config w req [Sample.kitchen] in
  Eff.val r = Raise (LibraryError "openai.APIConnectionError")
  /\ List.length (Eff.log r) = 1%nat
  /\ Eff.st r = [Sample.kitchen].
Proof.
  cbv zeta.
  pose proof (query_failures Sample.config
                {| now := "2024-05-01 10:00:00";
                   vision := fun _ => Ok Sample.refusal;
                   new_client := Ok tt;
                   chat := fun _ => Raise (LibraryError "openai.APIConnectionError");
                   rowid_probes := [] |}
                (Sample.post [("question", "What room was it?");
                              ("start_date", "2024-05-01"); ("start_time", "09:00");
                              ("end_date", "2024-05-01"); ("end_time", "11:00")])
                [Sample.kitchen] "What room was it?"
                "2024-05-01" "09:00" "2024-05-01" "11:00"
                eq_refl eq_refl eq_refl eq_refl eq_refl eq_refl) as H.
  cbv zeta in H. cbn [new_client chat] in H. destruct H as (H1 & H2 & H3).
  split; [exact H3 |]. split; [now rewrite H2 | exact H1].
Defined.

(** X11.  A POST to [/query] that lacks one of its five fields is refused
    with the missing-key error before anything is done: the table is not
    read for the model and no call is made. *)
Theorem query_missing_field (cfg : config_t) (w : world) (req : request) (t : table) :
  method req = POST ->
  forallb (has_field (form req)) query_fields = false ->
  query cfg w req t = Eff.Out (Raise BadRequestKeyError) t [].
Proof.
  intros Hm Hf. unfold query. rewrite Hm. unfold query_fields in Hf. cbn [forallb] in Hf.
  destruct (has_field (form req) "question") eqn:G0;
    [| rewrite (has_field_false _ _ G0); now eff_run].
  destruct (has_field (form req) "start_date") eqn:G1;
    [| unfold has_field in G0; destruct (form_item (form req) "question");
       [| discriminate]; rewrite (has_field_false _ _ G1); now eff_run].
  destruct (has_field (form req) "start_time") eqn:G2;
    [| unfold has_field in G0, G1; destruct (form_item (form req) "question");
       [| discriminate]; destruct (form_item (form req) "start_date");
       [| discriminate]; rewrite (has_field_false _ _ G2); now eff_run].
  destruct (has_field (form req) "end_date") eqn:G3;
    [| unfold has_field in G0, G1, G2; destruct (form_item (form req) "question");
       [| discriminate]; destruct (form_item (form req) "start_date");
       [| discriminate]; destruct (form_item (form req) "start_time");
       [| discriminate]; rewrite (has_field_false _ _ G3); now eff_run].
  destruct (has_field (form req) "end_time") eqn:G4; [discriminate |].
  unfold has_field in G0, G1, G2, G3.
  destruct (form_item (form req) "question"); [| discriminate].
  destruct (form_item (form req) "start_date"); [| discriminate].
  destruct (form_item (form req) "start_time"); [| discriminate].
  destruct (form_item (form req) "end_date"); [| discriminate].
  rewrite (has_field_false _ _ G4). now eff_run.
Qed.

Lemma query_missing_field_witness :
  query Sample.config (Sample.world_of (fun _ => Ok Sample.refusal))
        (Sample.post [("question", "What room was it?"); ("start_date", "2024-05-01")])
        [Sample.kitchen]
  = Eff.Out (Raise BadRequestKeyError) [Sample.kitchen] [].
Proof.
  exact (query_missing_field Sample.config (Sample.world_of (fun _ => Ok Sample.refusal))
           (Sample.post [("question", "What room was it?"); ("start_date", "2024-05-01")])
           [Sample.kitchen] eq_refl eq_refl).
Defined.

(** ** Ranges *)

Lemma select_between_inverted (a b : string) (t : table) :
  String.leb a b = false -> select_between a b t = [].
Proof.
  intro H. unfold select_between.
  replace (filter (fun r => between a b (timestamp r)) t) with (@nil row); [reflexivity |].
  symmetry. induction t as [| r t IH]; cbn; [reflexivity |].
  destruct (between a b (timestamp r)) eqn:B; [| exact IH].
  unfold between in B. apply andb_true_iff in B. destruct B as [B1 B2].
  rewrite (leb_trans _ _ _ B1 B2) in H. discriminate.
Qed.

(** X12.  When the end of the range comes before its start, no row is in
    the range, whatever the table holds: a POST to [/contents] with such
    date fields shows an empty page after its deletions, and a POST to
    [/query] with them, once its question is read and the client built,
    asks the model with the empty text as its third turn. *)
Theorem inverted_range_is_empty (rowid_of_text : string -> option Z) (cfg : config_t)
    (w : world) (req : request) (t : table) (sd st_ ed et : string) :
  method req = POST ->
  form_item (form req) "start_date" = Ok sd ->
  form_item (form req) "start_time" = Ok st_ ->
  form_item (form req) "end_date" = Ok ed ->
  form_item (form req) "end_time" = Ok et ->
  String.leb (sd ++ " " ++ st_) (ed ++ " " ++ et) = false ->
  Eff.val (manage_contents rowid_of_text req t)
  = Ok (ContentsPage (String.eqb (args_get (args req) "i" "0") "1") [])
  /\ Eff.log (query cfg w req t)
     = match form_item (form req) "question", new_client w with
       | Ok question, Ok _ =>
           [ChatRequest (openai_model cfg)
              [ {| role := "system"; content := system_prompt |};
                {| role := "user"; content := question |};
                {| role := "user"; content := "" |} ]]
       | _, _ => []
       end.
Proof.
  intros Hm F1 F2 F3 F4 Hinv. split.
  - pose proof (manage_contents_out rowid_of_text req t) as H. cbv zeta in H.
    rewrite H, Hm, F1, F2, F3, F4. cbn [Eff.val].
    now rewrite select_between_inverted.
  - destruct (form_item (form req) "question") as [question | e] eqn:F0.
    + pose proof (query_post cfg w req t question sd st_ ed et Hm F0 F1 F2 F3 F4) as P.
      cbv zeta in P. rewrite P, bind_ret_map. cbn [Eff.log].
      rewrite select_between_inverted by exact Hinv. cbn [map String.concat].
      pose proof (ask_gpt4_out cfg w question "" t) as A. cbv zeta in A.
      rewrite A. destruct (new_client w); reflexivity.
    + unfold query. rewrite Hm, F0. reflexivity.
Qed.

Lemma inverted_range_is_empty_witness :
  let click := Sample.post [("content_id", "1");
                            ("start_date", "2024-05-02"); ("start_time", "09:00");
                            ("end_date", "2024-05-01"); ("end_time", "09:00")] in
  let ask := Sample.post [("question", "What room was it?");
                          ("start_date", "2024-05-02"); ("start_time", "09:00");
                          ("end_date", "2024-05-01"); ("end_time", "09:00")] in
  let w := Sample.world_of (fun _ => Ok Sample.refusal) in
  Eff.val (manage_contents decimal_rowid click [Sample.kitchen; Sample.study])
  = Ok (ContentsPage false [])
  /\ Eff.log (query Sample.config w ask [Sample.kitchen; Sample.study])
     = [ChatRequest (Str "gpt-4o")
          [ {| role := "system"; content := system_prompt |};
            {| role := "user"; content := "What room was it?" |};
            {| role := "user"; content := "" |} ]].
Proof.
  split.
  - exact (proj1 (inverted_range_is_empty decimal_rowid Sample.config
                    (Sample.world_of (fun _ => Ok Sample.refusal))
                    (Sample.post [("content_id", "1");
                                  ("start_date", "2024-05-02"); ("start_time", "09:00");
                                  ("end_date", "2024-05-01"); ("end_time", "09:00")])
                    [Sample.kitchen; Sample.study]
                    "2024-05-02" "09:00" "2024-05-01" "09:00"
                    eq_refl eq_refl eq_refl eq_refl eq_refl eq_refl)).
  - exact (proj2 (inverted_range_is_empty decimal_rowid Sample.config
                    (Sample.world_of (fun _ => Ok Sample.refusal))
                    (Sample.post [("question", "What room was it?");
                                  ("start_date", "2024-05-02"); ("start_time", "09:00");
                                  ("end_date", "2024-05-01"); ("end_time", "09:00")])
                    [Sample.kitchen; Sample.study]
                    "2024-05-02" "09:00" "2024-05-01" "09:00"
                    eq_refl eq_refl eq_refl eq_refl eq_refl eq_refl)).
Defined.

(** X13.  Narrowing the range never brings in a row: a row in the range
    from [a'] to [b'] is in every range from [a] to [b] that contains
    it. *)
Theorem narrower_range_has_fewer (a b a' b' : string) (t : table) :
  String.leb a a' = true -> String.leb b' b = true ->
  incl (select_between a' b' t) (select_between a b t).
Proof.
  intros Ha Hb r Hr. apply select_between_In in Hr. destruct Hr as (H1 & H2 & H3).
  apply select_between_In. split; [exact H1 |].
  split; [exact (leb_trans _ _ _ Ha H2) | exact (leb_trans _ _ _ H3 Hb)].
Qed.

Lemma narrower_range_has_fewer_witness :
  incl (select_between "2024-05-01 09:00" "2024-05-01 11:00" [Sample.kitchen])
       (select_between "2024-05-01" "2024-05-02" [Sample.kitchen]).
Proof.
  exact (narrower_range_has_fewer "2024-05-01" "2024-05-02"
           "2024-05-01 09:00" "2024-05-01 11:00" [Sample.kitchen] eq_refl eq_refl).
Defined.

Lemma ascii_compare_refl (c : ascii) : Ascii.compare c c = Eq.
Proof. unfold Ascii.compare. apply N.compare_refl. Qed.

Lemma leb_extends (b s : string) : String.leb b (b ++ s) = true.
Proof.
  unfold String.leb. induction b as [| c b IH]; cbn.
  - now destruct s.
  - now rewrite ascii_compare_refl.
Qed.

Lemma leb_extended (b s : string) : s <> "" -> String.leb (b ++ s) b = false.
Proof.
  intro Hs. unfold String.leb. induction b as [| c b IH]; cbn.
  - destruct s; [contradiction | reflexivity].
  - now rewrite ascii_compare_refl.
Qed.

(** X14.  Bounds are compared as texts.  A row whose timestamp continues
    the end bound (a bound given to the minute, a timestamp with its
    seconds) lies after it and is not in the range; a row whose timestamp
    continues the start bound is in the range when it is not after the
    end. *)
Theorem end_bound_is_a_prefix (a b s : string) (t : table) :
  s <> "" ->
  (forall r, In r (select_between a b t) -> timestamp r <> b ++ s)
  /\ (forall r, In r t -> timestamp r = a ++ s -> String.leb (a ++ s) b = true ->
                In r (select_between a b t)).
Proof.
  intro Hs. split.
  - intros r Hr E. apply select_between_In in Hr. destruct Hr as (_ & _ & H).
    rewrite E, (leb_extended b s Hs) in H. discriminate.
  - intros r Hr E L. apply select_between_In. rewrite E.
    split; [exact Hr |]. split; [apply leb_extends | exact L].
Qed.

Lemma end_bound_is_a_prefix_witness :
  timestamp Sample.kitchen = "2024-05-01 10:00" ++ ":00"
  /\ select_between "2024-05-01 09:00" "2024-05-01 10:00" [Sample.kitchen] = []
  /\ select_between "2024-05-01 10:00" "2024-05-01 11:00" [Sample.kitchen]
     = [Sample.kitchen].
Proof.
  pose proof (end_bound_is_a_prefix "2024-05-01 09:00" "2024-05-01 10:00" ":00"
                [Sample.kitchen] ltac:(discriminate)) as [H _].
  split; [reflexivity |]. split; [| reflexivity].
  destruct (select_between "2024-05-01 09:00" "2024-05-01 10:00" [Sample.kitchen])
    as [| r l] eqn:E; [reflexivity |].
  exfalso. assert (I : In r (r :: l)) by now left.
  pose proof (H r I) as N.
  rewrite <- E in I. apply select_between_In in I. destruct I as ([<- | []] & _).
  now apply N.
Defined.

(** ** Deletions and the listing *)

(** X24.  After a POST to [/contents] that carries its date fields, the
    listing of [/get_contents] has no object under an id that one of the
    [content_id] texts denotes, and still has the object of every row that
    none of them denotes. *)
Theorem deleted_rows_not_listed (rowid_of_text : string -> option Z)
    (req : request) (t : table) :
  deletes req = true ->
  let t' := Eff.st (manage_contents rowid_of_text req t) in
  exists l, Eff.val (get_contents t') = Ok (Jsonify (List l) 200)
    /\ (forall c n entry, In c (getlist (form req) "content_id") ->
                          rowid_of_text c = Some n ->
                          In entry l -> getitem entry "id" <> Ok (Int n))
    /\ (forall x, In x t ->
                  listed rowid_of_text (getlist (form req) "content_id") x = false ->
                  In (row_dict x) l).
Proof.
  intros D t'. subst t'. rewrite manage_contents_st, D, get_contents_out.
  cbn [Eff.val]. eexists. split; [reflexivity |]. split.
  - intros c n entry Hc Hn He E.
    apply in_map_iff in He. destruct He as (x & <- & Hx).
    apply filter_In in Hx. destruct Hx as [_ Hx].
    cbn in E. injection E as E.
    apply negb_true_iff in Hx. unfold listed in Hx.
    assert (X : existsb (fun c0 => match rowid_of_text c0 with
                                   | Some n0 => id x =? n0
                                   | None => false
                                   end) (getlist (form req) "content_id") = true).
    { apply existsb_exists. exists c. split; [exact Hc |].
      rewrite Hn. apply Z.eqb_eq. exact E. }
    congruence.
  - intros x Hx Hl. apply in_map. apply filter_In. split; [exact Hx |].
    now rewrite Hl.
Qed.

Lemma deleted_rows_not_listed_witness :
  let req := Sample.post [("start_date", ""); ("start_time", "");
                          ("end_date", ""); ("end_time", ""); ("content_id", "1")] in
  exists l,
    Eff.val (get_contents (Eff.st (manage_contents decimal_rowid req [Sample.kitchen])))
    = Ok (Jsonify (List l) 200)
    /\ forall entry, In entry l -> getitem entry "id" <> Ok (Int 1).
Proof.
  cbv zeta.
  destruct (deleted_rows_not_listed decimal_rowid
              (Sample.post [("start_date", ""); ("start_time", "");
                            ("end_date", ""); ("end_time", ""); ("content_id", "1")])
              [Sample.kitchen] eq_refl) as (l & H & N & _).
  exists l. split; [exact H |].
  intros entry He. apply (N "1" 1 entry); [cbn; now left | reflexivity | exact He].
Defined.

End ServerSpec.

(* ================================================================== *)
(** * Properties of the device *)

Module DeviceSpec.
Import Device.

(** ** The shutdown counter *)

Ltac keeps_tac :=
  repeat first
    [ apply EffFacts.keeps_ret
    | apply EffFacts.keeps_lift
    | apply EffFacts.keeps_raise
    | apply EffFacts.keeps_gets
    | apply EffFacts.keeps_emit; first [reflexivity | exact Logic.I]
    | apply EffFacts.keeps_modify; intros ? ?; assumption
    | apply EffFacts.keeps_try_except
    | apply EffFacts.keeps_for_each; intro
    | apply EffFacts.keeps_bind; [| intro]
    | match goal with
      | |- Eff.keeps _ _ (match ?x with _ => _ end) => destruct x
      end ].

Lemma getIP_keeps_counter (w : world) (n : Z) :
  Eff.keeps (fun g => shutdownCounter g = n) not_shutdown (getIP w).
Proof. unfold getIP. keeps_tac. Qed.

Lemma capture_keeps_counter (w : world) (n : Z) :
  Eff.keeps (fun g => shutdownCounter g = n) not_shutdown
            (capture_image_and_save_to_base64 w).
Proof.
  unfold capture_image_and_save_to_base64. keeps_tac.
Qed.

Lemma captureImageOpenai_keeps_counter (cfg : config_t) (w : world) (n : Z) :
  Eff.keeps (fun g => shutdownCounter g = n) not_shutdown (captureImageOpenai cfg w).
Proof.
  unfold captureImageOpenai, post_content, gpio_output. keeps_tac.
Qed.

Lemma captureImageGoogle_keeps_counter (cfg : config_t) (w : world) (n : Z) :
  Eff.keeps (fun g => shutdownCounter g = n) not_shutdown (captureImageGoogle cfg w).
Proof.
  unfold captureImageGoogle, post_content, analyze_image_google, gpio_output. keeps_tac.
Qed.

Lemma shutdowns_none (l : list effect) :
  Forall not_shutdown l -> shutdowns l = 0%nat.
Proof.
  unfold shutdowns. induction 1 as [| x l Hx F IH]; cbn; [reflexivity |].
  unfold not_shutdown in Hx. now rewrite Hx.
Qed.

(** A press on a capture button resets the counter, whatever happens to
    the capture, and asks for no shutdown. *)
Lemma fire_capture (cfg : config_t) (e : event) (g : globals) :
  e <> ShutdownButton ->
  shutdownCounter (Eff.st (fire cfg e g)) = shutdown_counter_max cfg
  /\ shutdowns (Eff.log (fire cfg e g)) = 0%nat.
Proof.
  intro He. destruct e as [w | | w]; [| contradiction |]; cbn [fire].
  - unfold buttonCallback, gpio_output.
    rewrite !EffFacts.st_bind_emit, !EffFacts.log_bind_emit, EffFacts.bind_modify.
    destruct (captureImageOpenai_keeps_counter cfg w (shutdown_counter_max cfg)
                (set_shutdownCounter (shutdown_counter_max cfg) g) eq_refl) as [H1 H2].
    split; [exact H1 |].
    apply shutdowns_none. repeat (constructor; [reflexivity |]). exact H2.
  - unfold buttonCallback3, gpio_output.
    rewrite !EffFacts.st_bind_emit, !EffFacts.log_bind_emit, EffFacts.bind_modify.
    destruct (captureImageGoogle_keeps_counter cfg w (shutdown_counter_max cfg)
                (set_shutdownCounter (shutdown_counter_max cfg) g) eq_refl) as [H1 H2].
    split; [exact H1 |].
    apply shutdowns_none. repeat (constructor; [reflexivity |]). exact H2.
Qed.

(** A press on the shutdown button takes one off the counter and asks for
    the shutdown when that leaves zero. *)
Lemma fire_shutdown (cfg : config_t) (g : globals) :
  shutdownCounter (Eff.st (fire cfg ShutdownButton g)) = shutdownCounter g - 1
  /\ shutdowns (Eff.log (fire cfg ShutdownButton g))
     = if shutdownCounter g - 1 =? 0 then 1%nat else 0%nat.
Proof.
  cbn [fire]. unfold buttonCallback2, gpio_output.
  rewrite !EffFacts.st_bind_emit, !EffFacts.log_bind_emit.
  rewrite EffFacts.bind_gets, EffFacts.bind_modify, EffFacts.bind_gets.
  cbn [set_shutdownCounter shutdownCounter].
  destruct (shutdownCounter g - 1 =? 0); cbn; auto.
Qed.

Lemma requests_cons (cfg : config_t) (e : event) (es : list event) (g : globals) :
  requests cfg (e :: es) g
  = shutdowns (Eff.log (fire cfg e g)) :: requests cfg es (Eff.st (fire cfg e g)).
Proof.
  unfold requests. cbn [run].
  destruct (run cfg es (Eff.st (fire cfg e g))) as [ls g']. reflexivity.
Qed.

(** Press number [k] (from 0) of a run of presses on the shutdown button
    asks for the shutdown when the counter stood at [k + 1]. *)
Lemma requests_presses (cfg : config_t) (n : nat) (g : globals) :
  requests cfg (repeat ShutdownButton n) g
  = map (fun k => if shutdownCounter g - 1 =? Z.of_nat k then 1%nat else 0%nat) (seq 0 n).
Proof.
  revert g. induction n as [| n IH]; intro g; [reflexivity |].
  cbn [repeat]. rewrite requests_cons.
  destruct (fire_shutdown cfg g) as [H1 H2]. rewrite H2, IH, H1.
  cbn [seq map]. f_equal.
  rewrite <- seq_shift, map_map. apply map_ext. intro k.
  replace (shutdownCounter g - 1 - 1 =? Z.of_nat k)
    with (shutdownCounter g - 1 =? Z.of_nat (S k)); [reflexivity |].
  destruct (Z.eqb_spec (shutdownCounter g - 1) (Z.of_nat (S k)));
    destruct (Z.eqb_spec (shutdownCounter g - 1 - 1) (Z.of_nat k)); try reflexivity; lia.
Qed.

(** C4.  With the counter maximum set to 3, in a run of presses on the
    shutdown button from the start of the process, the third press (number
    2 from 0) issues one shutdown request and no other press issues any,
    however many follow; after a first press, a press on a capture button
    issues none and puts the counter back, so that of the shutdown presses
    that follow it is again the third that issues the request: the fourth
    in total. *)
Theorem shutdown_on_third_press (cfg : config_t) :
  shutdown_counter_max cfg = 3 ->
  (forall n, requests cfg (repeat ShutdownButton n) (initial cfg)
             = map (fun k => if k =? 2 then 1 else 0)%nat (seq 0 n))
  /\ (forall e, e <> ShutdownButton ->
        shutdownCounter (snd (run cfg [ShutdownButton; e] (initial cfg))) = 3)
  /\ (forall e n, e <> ShutdownButton ->
        requests cfg (ShutdownButton :: e :: repeat ShutdownButton n) (initial cfg)
        = 0%nat :: 0%nat :: map (fun k => if k =? 2 then 1 else 0)%nat (seq 0 n)).
Proof.
  intro Hmax.
  assert (P : forall g n, shutdownCounter g = 3 ->
                requests cfg (repeat ShutdownButton n) g
                = map (fun k => if k =? 2 then 1 else 0)%nat (seq 0 n)).
  { intros g n Hg. rewrite requests_presses, Hg. apply map_ext. intro k.
    destruct (Nat.eqb_spec k 2); destruct (Z.eqb_spec (3 - 1) (Z.of_nat k));
      try reflexivity; lia. }
  split; [| split].
  - intro n. apply P. exact Hmax.
  - intros e He. cbn [run snd].
    destruct (fire_capture cfg e (Eff.st (fire cfg ShutdownButton (initial cfg))) He)
      as [H3 _].
    now rewrite H3.
  - intros e n He. rewrite !requests_cons.
    destruct (fire_shutdown cfg (initial cfg)) as [_ H2]. rewrite H2.
    cbn [initial shutdownCounter]. rewrite Hmax. cbn [Z.sub Z.eqb Z.add Z.opp Z.pos_sub Pos.pred_double].
    destruct (fire_capture cfg e (Eff.st (fire cfg ShutdownButton (initial cfg))) He)
      as [H3 H4].
    rewrite H4. do 2 f_equal. apply P. now rewrite H3.
Qed.

Lemma shutdown_on_third_press_witness :
  requests Sample.config (repeat ShutdownButton 5) (initial Sample.config)
  = [0; 0; 1; 0; 0]%nat
  /\ requests Sample.config
       (ShutdownButton :: OpenaiButton (Sample.world_of Sample.wifi Sample.picture (Ok "{}"))
          :: repeat ShutdownButton 4) (initial Sample.config)
     = [0; 0; 0; 0; 1; 0]%nat.
Proof.
  split.
  - exact (proj1 (shutdown_on_third_press Sample.config eq_refl) 5%nat).
  - refine (proj2 (proj2 (shutdown_on_third_press Sample.config eq_refl)) _ 4%nat _).
    discriminate.
Defined.

(** ** Uploads *)

Lemma posts_app (l1 l2 : list effect) : posts (l1 ++ l2) = (posts l1 ++ posts l2)%list.
Proof.
  induction l1 as [| x l1 IH]; [reflexivity |].
  destruct x; cbn; now rewrite ?IH.
Qed.

Lemma silent_posts (l : list effect) :
  Forall silent l -> posts l = [] /\ filter is_openai_request l = [].
Proof.
  induction 1 as [| x l Hx F [IH1 IH2]]; [now split |].
  destruct x; cbn in *; try contradiction; auto.
Qed.

Lemma capture_silent (w : world) :
  Eff.keeps (fun _ => True) silent (capture_image_and_save_to_base64 w).
Proof. unfold capture_image_and_save_to_base64. keeps_tac. Qed.

(** What [post_content] does: one request, whose failure is raised. *)
Lemma post_content_out (cfg : config_t) (w : world) (d img : string) (g : globals) :
  let payload := Dict [("image", Str img); ("description", Str d);
                       ("deviceid", devId g)] in
  post_content cfg w d img g
  = Eff.Out (match server w payload with
             | Ok _ => Ok tt
             | Raise e => Raise e
             end) g [HttpPost (contentserver_url cfg) payload].
Proof.
  cbv zeta. unfold post_content. eff_step. eff_step.
  destruct (server w _) as [ack | e]; eff_step; reflexivity.
Qed.

(** The guarded upload of both capture paths: a failure of the request is
    caught and the cached camera is dropped. *)
Lemma guarded_post_out (cfg : config_t) (w : world) (d img : string) (g : globals) :
  let payload := Dict [("image", Str img); ("description", Str d);
                       ("deviceid", devId g)] in
  Eff.try_except (post_content cfg w d img) (Eff.modify (set_picam2 None)) g
  = Eff.Out (Ok tt)
            (match server w payload with
             | Ok _ => g
             | Raise _ => set_picam2 None g
             end) [HttpPost (contentserver_url cfg) payload].
Proof.
  cbv zeta. unfold Eff.try_except. rewrite post_content_out.
  destruct (server w _) as [ack | e]; reflexivity.
Qed.

(** C9.  A press on the OpenAI button makes no request to the OpenAI
    endpoint from the device; when its capture yields a picture it posts
    one payload, whose description is the empty text, and when the capture
    fails it posts nothing. *)
Theorem openai_button_defers_description (cfg : config_t) (w : world)
                                         (channel : Z) (g : globals) :
  let r := buttonCallback cfg w channel g in
  let c := capture_image_and_save_to_base64 w
             (set_shutdownCounter (shutdown_counter_max cfg) g) in
  filter is_openai_request (Eff.log r) = []
  /\ posts (Eff.log r)
     = match Eff.val c with
       | Ok (image_base64, _) =>
           [Dict [("image", Str image_base64); ("description", Str "");
                  ("deviceid", devId (Eff.st c))]]
       | Raise _ => []
       end.
Proof.
  cbv zeta. unfold buttonCallback, captureImageOpenai, gpio_output.
  rewrite !EffFacts.log_bind_emit, EffFacts.bind_modify, !EffFacts.log_bind_emit.
  set (g1 := set_shutdownCounter (shutdown_counter_max cfg) g).
  destruct (capture_silent w g1 Logic.I) as [_ Hs].
  apply silent_posts in Hs. destruct Hs as [Hp Ho].
  destruct (capture_image_and_save_to_base64 w g1) as [[[img pil] | e] s1 l1] eqn:Hc;
    cbn [Eff.val Eff.st Eff.log] in *.
  - rewrite (EffFacts.bind_out _ _ _ _ _ _ Hc), EffFacts.log_after.
    rewrite EffFacts.log_bind_emit.
    rewrite (EffFacts.bind_out _ _ _ _ _ _ (guarded_post_out cfg w "" img s1)).
    rewrite EffFacts.log_after.
    cbn [filter is_openai_request posts]. rewrite filter_app, posts_app, Hp, Ho.
    cbn. auto.
  - rewrite (EffFacts.bind_out_raise _ _ _ _ _ _ Hc). cbn. auto.
Qed.

(** ** Failures of a capture *)

(** C5, at a failing input.  The camera is cached and the frame capture
    raises: the exception leaves the callback of either capture button,
    the cached camera is kept, and the LED that the capture lit last is
    not put out. *)
Theorem capture_failure_leaves_callback :
  let w := Sample.world_of Sample.wifi (Raise (LibraryError "capture_array")) (Ok "{}") in
  let r1 := buttonCallback Sample.config w 3 Sample.warm in
  let r3 := buttonCallback3 Sample.config w 26 Sample.warm in
  Eff.val r1 = Raise (LibraryError "capture_array")
  /\ picam2 (Eff.st r1) = Some 0%nat
  /\ Eff.log r1 = [GpioOutput 12 HIGH; GpioOutput 18 LOW;
                   GpioOutput 18 HIGH; GpioOutput 12 HIGH]
  /\ Eff.val r3 = Raise (LibraryError "capture_array")
  /\ picam2 (Eff.st r3) = Some 0%nat.
Proof. cbv zeta. repeat split. Qed.

(** ** The device id *)

Lemma set_ip_same (g : globals) : set_ip (ip g) g = g.
Proof. now destruct g. Qed.

Lemma set_ip_twice (v v' : value) (g : globals) : set_ip v (set_ip v' g) = set_ip v g.
Proof. reflexivity. Qed.

(** The loop of [getIP] over a decoded routing table. *)
Lemma getIP_loop (routes : list (list (string * value))) (g : globals) :
  Eff.for_each (S := globals) (E := effect) (map Dict routes)
    (fun r =>
       dev <- Eff.lift (Py.get r "dev" None_) ;;
       if eq_str dev "wlan0" then
         prefsrc <- Eff.lift (Py.get r "prefsrc" None_) ;;
         if truthy prefsrc then
           v <- Eff.lift (getitem r "prefsrc") ;;
           Eff.modify (set_ip v)
         else Eff.ret tt
       else Eff.ret tt) g
  = Eff.Out (Ok tt) (set_ip (detected routes (ip g)) g) [].
Proof.
  revert g. induction routes as [| route routes IH]; intro g.
  - cbn. unfold Eff.ret. now rewrite set_ip_same.
  - cbn [map Eff.for_each detected]. unfold on_wlan0.
    rewrite EffFacts.bind_assoc. cbn [Py.get getitem].
    destruct (lookup "dev" route) as [dev |] eqn:Hdev.
    + rewrite EffFacts.bind_lift_ok.
      destruct (eq_str dev "wlan0") eqn:Hw.
      * rewrite EffFacts.bind_assoc.
        destruct (lookup "prefsrc" route) as [v |] eqn:Hp.
        -- rewrite EffFacts.bind_lift_ok. cbn [andb].
           destruct (truthy v) eqn:Ht.
           ++ rewrite EffFacts.bind_assoc, EffFacts.bind_lift_ok, EffFacts.bind_modify.
              rewrite IH. cbn [ip set_ip]. reflexivity.
           ++ rewrite EffFacts.bind_ret. apply IH.
        -- rewrite EffFacts.bind_lift_ok. cbn [truthy].
           rewrite EffFacts.bind_ret. apply IH.
      * rewrite EffFacts.bind_ret.
        destruct (lookup "prefsrc" route); cbn [andb]; apply IH.
    + rewrite EffFacts.bind_lift_ok. cbn [eq_str].
      rewrite EffFacts.bind_ret.
      destruct (lookup "prefsrc" route); apply IH.
Qed.

Lemma getIP_out (w : world) (routes : list (list (string * value))) (g : globals) :
  ip_route w = Ok (List (map Dict routes)) ->
  getIP w g
  = Eff.Out (Ok tt)
            (set_devId (detected routes (ip g)) (set_ip (detected routes (ip g)) g))
            [OsPopen "ip -j -4 route"].
Proof.
  intro Hr. unfold getIP. rewrite EffFacts.bind_emit.
  rewrite Hr. rewrite EffFacts.bind_lift_ok. cbn [iter].
  rewrite EffFacts.bind_lift_ok.
  rewrite (EffFacts.bind_out _ _ _ _ _ _ (getIP_loop routes g)).
  rewrite EffFacts.after_nil, EffFacts.bind_gets. reflexivity.
Qed.

(** The first capture of the process, once the camera is there. *)
Lemma capture_cold (w : world) (routes : list (list (string * value)))
                   (cam : camera) (g : globals) :
  picam2 g = None -> firstTime g = 0 ->
  new_camera w = Ok cam ->
  ip_route w = Ok (List (map Dict routes)) ->
  let v := detected routes (ip g) in
  capture_image_and_save_to_base64 w g
  = Eff.Out (take_picture w cam)
            (set_firstTime 1 (set_devId v (set_ip v (set_picam2 (Some cam) g))))
            [OsPopen "ip -j -4 route"].
Proof.
  intros Hp Hf Hc Hr v. unfold capture_image_and_save_to_base64.
  rewrite EffFacts.bind_gets, Hp, EffFacts.bind_assoc, Hc.
  rewrite EffFacts.bind_lift_ok, EffFacts.bind_modify, EffFacts.bind_gets.
  cbn [firstTime set_picam2]. rewrite Hf. cbn [Z.eqb].
  rewrite EffFacts.bind_assoc.
  rewrite (EffFacts.bind_out _ _ _ _ _ _ (getIP_out w routes _ Hr)).
  unfold Eff.after. rewrite EffFacts.bind_modify, EffFacts.bind_gets.
  cbn. reflexivity.
Qed.

Lemma detected_none (routes : list (list (string * value))) (ip0 : value) :
  no_wlan0_prefsrc routes = true -> detected routes ip0 = ip0.
Proof.
  unfold no_wlan0_prefsrc. revert ip0.
  induction routes as [| route routes IH]; intros ip0 H; [reflexivity |].
  cbn in H. apply andb_true_iff in H. destruct H as [H1 H2].
  cbn [detected]. unfold has_prefsrc in H1.
  destruct (lookup "prefsrc" route) as [v |]; [| now apply IH].
  destruct (on_wlan0 route); [discriminate |]. now apply IH.
Qed.

(** Once the id is resolved, nothing changes it and every upload carries
    it. *)
Ltac dev_tac :=
  repeat first
    [ apply EffFacts.keeps_ret
    | apply EffFacts.keeps_lift
    | apply EffFacts.keeps_raise
    | apply EffFacts.keeps_gets
    | apply EffFacts.keeps_emit; exact Logic.I
    | apply EffFacts.keeps_modify; intros ? ?; assumption
    | apply EffFacts.keeps_try_except
    | apply EffFacts.keeps_bind; [| intro]
    | match goal with
      | |- Eff.keeps _ _ (match ?x with _ => _ end) => destruct x
      end ].

Lemma post_content_keeps_id (cfg : config_t) (w : world) (d : value)
                            (description img : string) :
  Eff.keeps (resolved d) (carries d) (post_content cfg w description img).
Proof.
  unfold post_content. apply EffFacts.keeps_gets_bind. intros s [H1 H2].
  apply EffFacts.keeps_bind; [| intro; dev_tac].
  apply EffFacts.keeps_emit. cbn. now rewrite H2.
Qed.

Lemma capture_keeps_id (w : world) (d : value) :
  Eff.keeps (resolved d) (carries d) (capture_image_and_save_to_base64 w).
Proof.
  unfold capture_image_and_save_to_base64.
  apply EffFacts.keeps_bind; [dev_tac | intro cam].
  apply EffFacts.keeps_bind; [dev_tac | intros _].
  apply EffFacts.keeps_gets_bind. intros s [H1 H2]. rewrite H1. cbn [Z.eqb].
  dev_tac.
Qed.

Lemma captureImageOpenai_keeps_id (cfg : config_t) (w : world) (d : value) :
  Eff.keeps (resolved d) (carries d) (captureImageOpenai cfg w).
Proof.
  unfold captureImageOpenai, gpio_output.
  apply EffFacts.keeps_bind; [dev_tac | intros _].
  apply EffFacts.keeps_bind; [dev_tac | intros _].
  apply EffFacts.keeps_bind; [apply capture_keeps_id | intros [img pil]].
  apply EffFacts.keeps_bind; [dev_tac | intros _].
  apply EffFacts.keeps_bind; [| intros _; dev_tac].
  apply EffFacts.keeps_try_except; [apply post_content_keeps_id | dev_tac].
Qed.

Lemma captureImageGoogle_keeps_id (cfg : config_t) (w : world) (d : value) :
  Eff.keeps (resolved d) (carries d) (captureImageGoogle cfg w).
Proof.
  unfold captureImageGoogle, analyze_image_google, gpio_output.
  apply EffFacts.keeps_bind; [dev_tac | intros _].
  apply EffFacts.keeps_bind; [dev_tac | intros _].
  apply EffFacts.keeps_bind; [apply capture_keeps_id | intros [img pil]].
  apply EffFacts.keeps_bind; [dev_tac | intros _].
  apply EffFacts.keeps_bind; [| intros _; dev_tac].
  apply EffFacts.keeps_try_except; [| dev_tac].
  apply EffFacts.keeps_bind; [dev_tac | intro]. apply post_content_keeps_id.
Qed.

Lemma fire_keeps_id (cfg : config_t) (e : event) (d : value) :
  Eff.keeps (resolved d) (carries d) (fire cfg e).
Proof.
  destruct e as [w | | w]; cbn [fire].
  - unfold buttonCallback, gpio_output.
    do 3 (apply EffFacts.keeps_bind; [dev_tac | intros _]).
    apply captureImageOpenai_keeps_id.
  - unfold buttonCallback2, gpio_output. dev_tac.
  - unfold buttonCallback3, gpio_output.
    do 3 (apply EffFacts.keeps_bind; [dev_tac | intros _]).
    apply captureImageGoogle_keeps_id.
Qed.

Lemma carries_posts (d : value) (l : list effect) :
  Forall (carries d) l -> forall p, In p (posts l) -> getitem p "deviceid" = Ok d.
Proof.
  induction 1 as [| x l Hx F IH]; cbn; [contradiction |].
  destruct x; cbn in *; auto.
  intros p [<- | Hp]; auto.
Qed.

Lemma run_keeps_id (cfg : config_t) (d : value) (es : list event) (g : globals) :
  resolved d g -> Forall (carries d) (List.concat (fst (run cfg es g))).
Proof.
  revert g. induction es as [| e es IH]; intros g Hg; [constructor |].
  cbn [run]. destruct (fire_keeps_id cfg e d g Hg) as [H1 H2].
  specialize (IH _ H1).
  destruct (run cfg es (Eff.st (fire cfg e g))) as [ls g']. cbn in *.
  apply Forall_app. tauto.
Qed.

(** What follows the capture in the two capture paths. *)
Lemma openai_tail_keeps_id (cfg : config_t) (w : world) (d : value) (img : string) :
  Eff.keeps (resolved d) (carries d)
    (gpio_output (led_2 cfg) LOW ;;
     Eff.try_except (post_content cfg w "" img) (Eff.modify (set_picam2 None)) ;;
     gpio_output (led_1 cfg) LOW).
Proof.
  unfold gpio_output.
  apply EffFacts.keeps_bind; [dev_tac | intros _].
  apply EffFacts.keeps_bind; [| intros _; dev_tac].
  apply EffFacts.keeps_try_except; [apply post_content_keeps_id | dev_tac].
Qed.

Lemma google_tail_keeps_id (cfg : config_t) (w : world) (d : value)
                           (img : string) (pil : pil_image) :
  Eff.keeps (resolved d) (carries d)
    (gpio_output (led_1 cfg) LOW ;;
     Eff.try_except
       (result_ <- analyze_image_google cfg w pil ;; post_content cfg w result_ img)
       (Eff.modify (set_picam2 None)) ;;
     gpio_output (led_2 cfg) LOW).
Proof.
  unfold analyze_image_google, gpio_output.
  apply EffFacts.keeps_bind; [dev_tac | intros _].
  apply EffFacts.keeps_bind; [| intros _; dev_tac].
  apply EffFacts.keeps_try_except; [| dev_tac].
  apply EffFacts.keeps_bind; [dev_tac | intro]. apply post_content_keeps_id.
Qed.

(** The first press on a capture button, while no camera object is cached
    and the id has not been resolved: the id is resolved to the address
    detected in the routing table, and the upload of that very capture
    carries it. *)
Lemma first_capture_resolved (cfg : config_t) (w : world) (e : event) (g : globals)
    (routes : list (list (string * value))) (cam : camera) :
  e = OpenaiButton w \/ e = GoogleButton w ->
  picam2 g = None -> firstTime g = 0 ->
  new_camera w = Ok cam ->
  ip_route w = Ok (List (map Dict routes)) ->
  resolved (detected routes (ip g)) (Eff.st (fire cfg e g))
  /\ Forall (carries (detected routes (ip g))) (Eff.log (fire cfg e g)).
Proof.
  intros He Hp Hf Hc Hr. set (d := detected routes (ip g)).
  pose proof (capture_cold w routes cam
                (set_shutdownCounter (shutdown_counter_max cfg) g)
                Hp Hf Hc Hr) as Hcold.
  cbv zeta in Hcold. cbn [ip set_shutdownCounter] in Hcold. fold d in Hcold.
  match type of Hcold with _ = Eff.Out _ ?g0 _ => set (g' := g0) in * end.
  assert (Hres : resolved d g') by (split; reflexivity).
  destruct He as [-> | ->]; cbn [fire].
  - unfold buttonCallback, captureImageOpenai, gpio_output.
    rewrite !EffFacts.st_bind_emit, !EffFacts.log_bind_emit, EffFacts.bind_modify.
    rewrite !EffFacts.st_bind_emit, !EffFacts.log_bind_emit.
    destruct (take_picture w cam) as [[img pil] | ex].
    + rewrite (EffFacts.bind_out _ _ _ _ _ _ Hcold).
      rewrite EffFacts.st_after, EffFacts.log_after.
      destruct (openai_tail_keeps_id cfg w d img g' Hres) as [HA HB].
      split; [exact HA |].
      repeat (constructor; [exact Logic.I |]). exact HB.
    + rewrite (EffFacts.bind_out_raise _ _ _ _ _ _ Hcold). cbn [Eff.st Eff.log].
      split; [exact Hres |]. repeat (constructor; [exact Logic.I |]). constructor.
  - unfold buttonCallback3, captureImageGoogle, gpio_output.
    rewrite !EffFacts.st_bind_emit, !EffFacts.log_bind_emit, EffFacts.bind_modify.
    rewrite !EffFacts.st_bind_emit, !EffFacts.log_bind_emit.
    destruct (take_picture w cam) as [[img pil] | ex].
    + rewrite (EffFacts.bind_out _ _ _ _ _ _ Hcold).
      rewrite EffFacts.st_after, EffFacts.log_after.
      destruct (google_tail_keeps_id cfg w d img pil g' Hres) as [HA HB].
      split; [exact HA |].
      repeat (constructor; [exact Logic.I |]). exact HB.
    + rewrite (EffFacts.bind_out_raise _ _ _ _ _ _ Hcold). cbn [Eff.st Eff.log].
      split; [exact Hres |]. repeat (constructor; [exact Logic.I |]). constructor.
Qed.

(** C10.  The first press on a capture button that gets its camera object
    (no camera cached, the id not yet resolved, the address still the empty
    text it starts as, the routing table decoded to a list of objects)
    replaces the device id, whatever it was, by the address found in the
    routing table: the [prefsrc] of the last route on wlan0 that has one,
    the empty text when no route on wlan0 has a [prefsrc] field.  The
    upload of that capture and every later upload carry that id: the empty
    text in that case, not the configured default. *)
Theorem first_capture_overwrites_devId (cfg : config_t) (w : world) (e : event)
    (g : globals) (routes : list (list (string * value))) (cam : camera) :
  e = OpenaiButton w \/ e = GoogleButton w ->
  picam2 g = None -> firstTime g = 0 -> ip g = Str "" ->
  new_camera w = Ok cam ->
  ip_route w = Ok (List (map Dict routes)) ->
  let r := fire cfg e g in
  devId (Eff.st r) = detected routes (Str "")
  /\ firstTime (Eff.st r) = 1
  /\ (no_wlan0_prefsrc routes = true -> devId (Eff.st r) = Str "")
  /\ (forall es p, In p (posts (Eff.log r) ++ uploads cfg es (Eff.st r))%list ->
                   getitem p "deviceid" = Ok (devId (Eff.st r))).
Proof.
  intros He Hp Hf Hi Hc Hr r.
  destruct (first_capture_resolved cfg w e g routes cam He Hp Hf Hc Hr) as [[H1 H2] H3].
  rewrite Hi in H2, H3. fold r in H1, H2, H3.
  split; [exact H2 |]. split; [exact H1 |]. split.
  - intro Hn. rewrite H2. now apply detected_none.
  - intros es p Hp'. rewrite H2. apply in_app_or in Hp'. destruct Hp' as [Hp' | Hp'].
    + exact (carries_posts _ _ H3 p Hp').
    + unfold uploads in Hp'.
      refine (carries_posts _ _ (run_keeps_id cfg _ es (Eff.st r) _) p Hp').
      split; assumption.
Qed.

Lemma first_capture_overwrites_devId_witness :
  let w := Sample.world_of Sample.cable Sample.picture (Ok "{}") in
  let r := fire Sample.config (OpenaiButton w) (initial Sample.config) in
  devId (initial Sample.config) = Str "camera-1"
  /\ devId (Eff.st r) = Str ""
  /\ posts (Eff.log r)
     = [Dict [("image", Str "aGVsbG8="); ("description", Str ""); ("deviceid", Str "")]]
  /\ forall es p, In p (uploads Sample.config es (Eff.st r)) ->
                  getitem p "deviceid" = Ok (Str "").
Proof.
  cbv zeta.
  pose proof (first_capture_overwrites_devId Sample.config
                (Sample.world_of Sample.cable Sample.picture (Ok "{}"))
                (OpenaiButton (Sample.world_of Sample.cable Sample.picture (Ok "{}")))
                (initial Sample.config) Sample.cable 0%nat
                (or_introl eq_refl) eq_refl eq_refl eq_refl eq_refl eq_refl) as H.
  cbv zeta in H. destruct H as (_ & _ & H3 & H4).
  split; [reflexivity |]. split; [exact (H3 eq_refl) |]. split; [reflexivity |].
  intros es p Hp. rewrite <- (H3 eq_refl). apply (H4 es p).
  apply in_or_app. now right.
Defined.

(** ** The counter, for any maximum *)

(** X15.  Whatever the counter holds, a press on a capture button issues
    no shutdown request and arms the counter again: of the presses on the
    shutdown button that follow, the one that issues the request is the
    press whose number equals the configured maximum, and no other. *)
Theorem capture_rearms_counter (cfg : config_t) (e : event) (n : nat) (g : globals) :
  e <> ShutdownButton ->
  requests cfg (e :: repeat ShutdownButton n) g
  = 0%nat :: map (fun k => if shutdown_counter_max cfg - 1 =? Z.of_nat k
                           then 1%nat else 0%nat) (seq 0 n).
Proof.
  intro He. rewrite requests_cons.
  destruct (fire_capture cfg e g He) as [H1 H2].
  now rewrite H2, requests_presses, H1.
Qed.

Lemma capture_rearms_counter_witness :
  requests Sample.config
    (GoogleButton (Sample.world_of Sample.wifi Sample.picture (Ok "{}"))
       :: repeat ShutdownButton 4)
    (set_shutdownCounter (-7) Sample.warm)
  = [0; 0; 0; 1; 0]%nat.
Proof.
  refine (capture_rearms_counter Sample.config _ 4%nat _ _). discriminate.
Defined.

Lemma never_armed (cfg : config_t) (es : list event) (g : globals) :
  shutdown_counter_max cfg <= 0 -> shutdownCounter g <= 0 ->
  requests cfg es g = repeat 0%nat (List.length es).
Proof.
  intro Hmax. revert g. induction es as [| e es IH]; intros g Hg; [reflexivity |].
  rewrite requests_cons. cbn [List.length repeat].
  destruct e as [w | | w].
  - destruct (fire_capture cfg (OpenaiButton w) g ltac:(discriminate)) as [H1 H2].
    rewrite H2, IH; [reflexivity | lia].
  - destruct (fire_shutdown cfg g) as [H1 H2].
    rewrite H2, IH; [| lia].
    destruct (Z.eqb_spec (shutdownCounter g - 1) 0); [lia | reflexivity].
  - destruct (fire_capture cfg (GoogleButton w) g ltac:(discriminate)) as [H1 H2].
    rewrite H2, IH; [reflexivity | lia].
Qed.

(** X16.  With a maximum of zero or less, no series of presses, on any of
    the three buttons and whatever the captures do, ever issues a shutdown
    request: the counter stays at or below zero and the callback asks for
    the shutdown only when a press brings it to exactly zero. *)
Theorem zero_maximum_never_shuts_down (cfg : config_t) (es : list event) :
  shutdown_counter_max cfg <= 0 ->
  requests cfg es (initial cfg) = repeat 0%nat (List.length es).
Proof.
  intro Hmax. apply never_armed; [exact Hmax | exact Hmax].
Qed.

Lemma zero_maximum_never_shuts_down_witness :
  let cfg := {| shutdown_counter_max := 0; default_device_id := Str "camera-1";
                led_1 := 12; led_2 := 18;
                contentserver_url := "http://192.168.1.2:5000/add_content";
                google_api_key := "g-test"; google_model := "gemini-pro-vision";
                openai_api_key := "sk-test"; openai_model := "gpt-4o";
                max_tokens := 300 |} in
  requests cfg [ShutdownButton; ShutdownButton;
                OpenaiButton (Sample.world_of Sample.wifi Sample.picture (Ok "{}"));
                ShutdownButton] (initial cfg)
  = [0; 0; 0; 0]%nat.
Proof.
  cbv zeta.
  refine (zero_maximum_never_shuts_down _ [ShutdownButton; ShutdownButton;
            OpenaiButton (Sample.world_of Sample.wifi Sample.picture (Ok "{}"));
            ShutdownButton] _).
  cbn. lia.
Defined.

(** ** The two capture paths, whole *)

(** The guarded analysis and upload of the Google path. *)
Lemma guarded_google_out (cfg : config_t) (w : world) (img : string) (pil : pil_image)
                         (g : globals) :
  Eff.try_except
    (result_ <- analyze_image_google cfg w pil ;; post_content cfg w result_ img)
    (Eff.modify (set_picam2 None)) g
  = Eff.Out (Ok tt)
      (match gemini w pil with
       | Ok d => match server w (payload_of img d (devId g)) with
                 | Ok _ => g
                 | Raise _ => set_picam2 None g
                 end
       | Raise _ => set_picam2 None g
       end)
      (GeminiRequest (google_model cfg) vision_prompt pil
         :: match gemini w pil with
            | Ok d => [HttpPost (contentserver_url cfg) (payload_of img d (devId g))]
            | Raise _ => []
            end).
Proof.
  unfold Eff.try_except, analyze_image_google.
  rewrite EffFacts.bind_assoc, EffFacts.bind_emit.
  destruct (gemini w pil) as [d | e].
  - rewrite EffFacts.bind_lift_ok, post_content_out. unfold payload_of.
    destruct (server w _) as [ack | e]; reflexivity.
  - rewrite EffFacts.bind_lift_raise. reflexivity.
Qed.

(** The callback of the OpenAI button, from what its capture does. *)
Lemma buttonCallback_out (cfg : config_t) (w : world) (channel : Z) (g : globals) :
  buttonCallback cfg w channel g
  = match capture_image_and_save_to_base64 w
            (set_shutdownCounter (shutdown_counter_max cfg) g) with
    | Eff.Out (Ok (img, _)) s1 l1 =>
        Eff.Out (Ok tt)
          (match server w (payload_of img "" (devId s1)) with
           | Ok _ => s1
           | Raise _ => set_picam2 None s1
           end)
          ([GpioOutput (led_1 cfg) HIGH; GpioOutput (led_2 cfg) LOW;
            GpioOutput (led_2 cfg) HIGH; GpioOutput (led_1 cfg) HIGH]
           ++ l1
           ++ [GpioOutput (led_2 cfg) LOW;
               HttpPost (contentserver_url cfg) (payload_of img "" (devId s1));
               GpioOutput (led_1 cfg) LOW])%list
    | Eff.Out (Raise e) s1 l1 =>
        Eff.Out (Raise e) s1
          ([GpioOutput (led_1 cfg) HIGH; GpioOutput (led_2 cfg) LOW;
            GpioOutput (led_2 cfg) HIGH; GpioOutput (led_1 cfg) HIGH] ++ l1)%list
    end.
Proof.
  unfold buttonCallback, captureImageOpenai, gpio_output.
  rewrite !EffFacts.bind_emit, EffFacts.bind_modify, !EffFacts.bind_emit.
  destruct (capture_image_and_save_to_base64 w _) as [[[img pil] | e] s1 l1] eqn:Hc.
  - rewrite (EffFacts.bind_out _ _ _ _ _ _ Hc). unfold Eff.after.
    rewrite EffFacts.bind_emit.
    rewrite (EffFacts.bind_out _ _ _ _ _ _ (guarded_post_out cfg w "" img s1)).
    unfold Eff.after, Eff.emit, payload_of. cbn. reflexivity.
  - rewrite (EffFacts.bind_out_raise _ _ _ _ _ _ Hc). reflexivity.
Qed.

(** The callback of the Google button, from what its capture does. *)
Lemma buttonCallback3_out (cfg : config_t) (w : world) (channel : Z) (g : globals) :
  buttonCallback3 cfg w channel g
  = match capture_image_and_save_to_base64 w
            (set_shutdownCounter (shutdown_counter_max cfg) g) with
    | Eff.Out (Ok (img, pil)) s1 l1 =>
        Eff.Out (Ok tt)
          (match gemini w pil with
           | Ok d => match server w (payload_of img d (devId s1)) with
                     | Ok _ => s1
                     | Raise _ => set_picam2 None s1
                     end
           | Raise _ => set_picam2 None s1
           end)
          ([GpioOutput (led_1 cfg) LOW; GpioOutput (led_2 cfg) HIGH;
            GpioOutput (led_2 cfg) HIGH; GpioOutput (led_1 cfg) HIGH]
           ++ l1
           ++ [GpioOutput (led_1 cfg) LOW;
               GeminiRequest (google_model cfg) vision_prompt pil]
           ++ match gemini w pil with
              | Ok d => [HttpPost (contentserver_url cfg) (payload_of img d (devId s1))]
              | Raise _ => []
              end
           ++ [GpioOutput (led_2 cfg) LOW])%list
    | Eff.Out (Raise e) s1 l1 =>
        Eff.Out (Raise e) s1
          ([GpioOutput (led_1 cfg) LOW; GpioOutput (led_2 cfg) HIGH;
            GpioOutput (led_2 cfg) HIGH; GpioOutput (led_1 cfg) HIGH] ++ l1)%list
    end.
Proof.
  unfold buttonCallback3, captureImageGoogle, gpio_output.
  rewrite !EffFacts.bind_emit, EffFacts.bind_modify, !EffFacts.bind_emit.
  destruct (capture_image_and_save_to_base64 w _) as [[[img pil] | e] s1 l1] eqn:Hc.
  - rewrite (EffFacts.bind_out _ _ _ _ _ _ Hc). unfold Eff.after.
    rewrite EffFacts.bind_emit.
    rewrite (EffFacts.bind_out _ _ _ _ _ _ (guarded_google_out cfg w img pil s1)).
    unfold Eff.after, Eff.emit. cbn. reflexivity.
  - rewrite (EffFacts.bind_out_raise _ _ _ _ _ _ Hc). reflexivity.
Qed.

(** X17.  A press on the OpenAI button whose capture yields a picture
    returns normally whatever the content server does: when the upload is
    answered the globals are those the capture left, and when the upload
    raises the exception is swallowed and only the cached camera is
    dropped. *)
Theorem openai_upload_failure_caught (cfg : config_t) (w : world) (channel : Z)
    (g s1 : globals) (img : string) (pil : pil_image) (l1 : list effect) :
  capture_image_and_save_to_base64 w (set_shutdownCounter (shutdown_counter_max cfg) g)
  = Eff.Out (Ok (img, pil)) s1 l1 ->
  let r := buttonCallback cfg w channel g in
  Eff.val r = Ok tt
  /\ Eff.st r = match server w (payload_of img "" (devId s1)) with
               | Ok _ => s1
               | Raise _ => set_picam2 None s1
               end.
Proof.
  intros Hc r. subst r. rewrite buttonCallback_out, Hc. split; reflexivity.
Qed.

Lemma openai_upload_failure_caught_witness :
  let w := Sample.world_of Sample.wifi Sample.picture
             (Raise (LibraryError "requests.ConnectionError")) in
  let r := buttonCallback Sample.config w 3 Sample.warm in
  Eff.val r = Ok tt /\ picam2 (Eff.st r) = None /\ devId (Eff.st r) = Str "192.168.1.20".
Proof.
  cbv zeta.
  destruct (openai_upload_failure_caught Sample.config
              (Sample.world_of Sample.wifi Sample.picture
                 (Raise (LibraryError "requests.ConnectionError")))
              3 Sample.warm Sample.warm "aGVsbG8=" (PilImage "frame") [] eq_refl)
    as [H1 H2].
  rewrite H2. split; [exact H1 |]. split; reflexivity.
Defined.

(** X18.  A press on the Google button whose capture yields a picture
    returns normally.  When the analysis yields a text, one payload is
    posted, with that text as description and the picture as image; when
    the analysis raises, nothing is posted.  The cached camera is dropped
    when the analysis or the upload raises and kept otherwise. *)
Theorem google_button_outcome (cfg : config_t) (w : world) (channel : Z)
    (g s1 : globals) (img : string) (pil : pil_image) (l1 : list effect) :
  capture_image_and_save_to_base64 w (set_shutdownCounter (shutdown_counter_max cfg) g)
  = Eff.Out (Ok (img, pil)) s1 l1 ->
  let r := buttonCallback3 cfg w channel g in
  Eff.val r = Ok tt
  /\ posts (Eff.log r) = match gemini w pil with
                         | Ok d => [payload_of img d (devId s1)]
                         | Raise _ => []
                         end
  /\ Eff.st r = match gemini w pil with
               | Ok d => match server w (payload_of img d (devId s1)) with
                         | Ok _ => s1
                         | Raise _ => set_picam2 None s1
                         end
               | Raise _ => set_picam2 None s1
               end.
Proof.
  intros Hc r. subst r.
  destruct (capture_silent w (set_shutdownCounter (shutdown_counter_max cfg) g) Logic.I)
    as [_ Hs].
  rewrite Hc in Hs. cbn [Eff.log] in Hs.
  apply silent_posts in Hs. destruct Hs as [Hp _].
  rewrite buttonCallback3_out, Hc. cbn [Eff.val Eff.st Eff.log].
  split; [reflexivity |]. split; [| reflexivity].
  rewrite !posts_app, Hp. destruct (gemini w pil); reflexivity.
Qed.

Lemma google_button_outcome_witness :
  let w := {| new_camera := Ok 0%nat;
              ip_route := Ok (List (map Dict Sample.wifi));
              take_picture := fun _ => Sample.picture;
              openai := fun _ => Raise (LibraryError "requests.post");
              gemini := fun _ => Raise (LibraryError "google.api_core.GoogleAPIError");
              server := fun _ => Ok "{}" |} in
  let r := buttonCallback3 Sample.config w 26 Sample.warm in
  Eff.val r = Ok tt /\ posts (Eff.log r) = [] /\ picam2 (Eff.st r) = None.
Proof.
  cbv zeta.
  destruct (google_button_outcome Sample.config
              {| new_camera := Ok 0%nat;
                 ip_route := Ok (List (map Dict Sample.wifi));
                 take_picture := fun _ => Sample.picture;
                 openai := fun _ => Raise (LibraryError "requests.post");
                 gemini := fun _ => Raise (LibraryError "google.api_core.GoogleAPIError");
                 server := fun _ => Ok "{}" |}
              26 Sample.warm Sample.warm "aGVsbG8=" (PilImage "frame") [] eq_refl)
    as (H1 & H2 & H3).
  rewrite H3. split; [exact H1 |]. split; [exact H2 | reflexivity].
Defined.

(** ** The camera and the routing table *)

(** X19.  Once the id is resolved, a capture with a cached camera only
    takes the picture with that camera: it builds no camera, does not read
    the routing table and changes no global.  With no camera cached it
    builds one first and caches it; when that fails the exception is
    raised with the globals unchanged, so that the next capture tries
    again. *)
Theorem capture_when_resolved (w : world) (g : globals) :
  firstTime g = 1 ->
  capture_image_and_save_to_base64 w g
  = match picam2 g with
    | Some c => Eff.Out (take_picture w c) g []
    | None =>
        match new_camera w with
        | Ok c => Eff.Out (take_picture w c) (set_picam2 (Some c) g) []
        | Raise e => Eff.Out (Raise e) g []
        end
    end.
Proof.
  intro Hf. unfold capture_image_and_save_to_base64.
  rewrite EffFacts.bind_gets. destruct (picam2 g) as [c |] eqn:Hp.
  - rewrite EffFacts.bind_ret, EffFacts.bind_gets, Hf. cbn [Z.eqb].
    rewrite EffFacts.bind_ret, EffFacts.bind_gets, Hp. reflexivity.
  - rewrite EffFacts.bind_assoc. destruct (new_camera w) as [c | e].
    + rewrite EffFacts.bind_lift_ok, EffFacts.bind_modify, EffFacts.bind_gets.
      cbn [firstTime set_picam2]. rewrite Hf. cbn [Z.eqb].
      rewrite EffFacts.bind_ret, EffFacts.bind_gets. reflexivity.
    + rewrite EffFacts.bind_lift_raise. reflexivity.
Qed.

Lemma capture_when_resolved_witness :
  capture_image_and_save_to_base64
    (Sample.world_of Sample.wifi Sample.picture (Ok "{}")) (set_picam2 None Sample.warm)
  = Eff.Out Sample.picture Sample.warm [].
Proof.
  exact (capture_when_resolved (Sample.world_of Sample.wifi Sample.picture (Ok "{}"))
           (set_picam2 None Sample.warm) eq_refl).
Defined.

(** The query of the routing table that fails. *)
Lemma getIP_fails (w : world) (e : exn) (g : globals) :
  routes_of w = Raise e ->
  getIP w g = Eff.Out (Raise e) g [OsPopen "ip -j -4 route"].
Proof.
  unfold routes_of, getIP. intro H. rewrite EffFacts.bind_emit.
  destruct (ip_route w) as [routes | e'].
  - rewrite EffFacts.bind_lift_ok, H, EffFacts.bind_lift_raise. reflexivity.
  - injection H as ->. rewrite EffFacts.bind_lift_raise. reflexivity.
Qed.

(** X20.  When, on a capture that has its camera, the routing table cannot
    be read (the command's output is not decoded, or is not a list), the
    exception leaves the capture; the device id, the address and the
    first-time flag are as they were, so the next capture reads the table
    again. *)
Theorem routing_failure_leaves_id (w : world) (g : globals) (c : camera) (e : exn) :
  firstTime g = 0 ->
  picam2 g = Some c \/ (picam2 g = None /\ new_camera w = Ok c) ->
  routes_of w = Raise e ->
  let r := capture_image_and_save_to_base64 w g in
  Eff.val r = Raise e
  /\ Eff.log r = [OsPopen "ip -j -4 route"]
  /\ devId (Eff.st r) = devId g /\ ip (Eff.st r) = ip g /\ firstTime (Eff.st r) = 0
  /\ picam2 (Eff.st r) = Some c.
Proof.
  intros Hf Hp Hr r. subst r. unfold capture_image_and_save_to_base64.
  rewrite EffFacts.bind_gets.
  destruct Hp as [Hp | [Hp Hc]]; rewrite Hp.
  - rewrite EffFacts.bind_ret, EffFacts.bind_gets, Hf. cbn [Z.eqb].
    rewrite EffFacts.bind_assoc.
    rewrite (EffFacts.bind_out_raise _ _ _ _ _ _ (getIP_fails w e g Hr)).
    cbn. repeat split; assumption.
  - rewrite EffFacts.bind_assoc, Hc, EffFacts.bind_lift_ok, EffFacts.bind_modify.
    rewrite EffFacts.bind_gets. cbn [firstTime set_picam2]. rewrite Hf. cbn [Z.eqb].
    rewrite EffFacts.bind_assoc.
    rewrite (EffFacts.bind_out_raise _ _ _ _ _ _ (getIP_fails w e _ Hr)).
    cbn. repeat split; assumption.
Qed.

Lemma routing_failure_leaves_id_witness :
  let w := {| new_camera := Ok 0%nat;
              ip_route := Raise (LibraryError "json.JSONDecodeError");
              take_picture := fun _ => Sample.picture;
              openai := fun _ => Raise (LibraryError "requests.post");
              gemini := fun _ => Ok "a desk with a lamp";
              server := fun _ => Ok "{}" |} in
  let r := capture_image_and_save_to_base64 w (initial Sample.config) in
  Eff.val r = Raise (LibraryError "json.JSONDecodeError")
  /\ devId (Eff.st r) = Str "camera-1" /\ firstTime (Eff.st r) = 0.
Proof.
  cbv zeta.
  destruct (routing_failure_leaves_id
              {| new_camera := Ok 0%nat;
                 ip_route := Raise (LibraryError "json.JSONDecodeError");
                 take_picture := fun _ => Sample.picture;
                 openai := fun _ => Raise (LibraryError "requests.post");
                 gemini := fun _ => Ok "a desk with a lamp";
                 server := fun _ => Ok "{}" |}
              (initial Sample.config) 0%nat (LibraryError "json.JSONDecodeError")
              eq_refl (or_intror (conj eq_refl eq_refl)) eq_refl)
    as (H1 & _ & H3 & _ & H5 & _).
  split; [exact H1 |]. split; [exact H3 | exact H5].
Defined.

Lemma detected_app (l1 l2 : list (list (string * value))) (ip0 : value) :
  detected (l1 ++ l2) ip0 = detected l2 (detected l1 ip0).
Proof.
  revert ip0. induction l1 as [| route l1 IH]; intro ip0; [reflexivity |].
  cbn [app detected]. apply IH.
Qed.

(** X21.  The loop over the routes does not stop at the first match: of
    several routes on wlan0 that have a [prefsrc] that counts as true, the
    last one in the table gives the address and the device id. *)
Theorem last_wlan0_route_wins (w : world) (g : globals)
    (before after : list (list (string * value))) (route : list (string * value))
    (v : value) :
  ip_route w = Ok (List (map Dict (before ++ route :: after))) ->
  on_wlan0 route = true ->
  lookup "prefsrc" route = Some v ->
  truthy v = true ->
  no_wlan0_prefsrc after = true ->
  let r := getIP w g in
  Eff.val r = Ok tt /\ devId (Eff.st r) = v /\ ip (Eff.st r) = v.
Proof.
  intros Hr Hw Hp Ht Ha r. subst r. rewrite (getIP_out w _ g Hr).
  cbn [Eff.val Eff.st devId ip set_devId set_ip].
  rewrite detected_app. cbn [detected]. rewrite Hp, Hw, Ht. cbn [andb].
  rewrite (detected_none after v Ha). auto.
Qed.

Lemma last_wlan0_route_wins_witness :
  let routes := [ [("dst", Str "default"); ("dev", Str "wlan0");
                   ("prefsrc", Str "192.168.1.20")];
                  [("dst", Str "10.8.0.0/24"); ("dev", Str "wlan0");
                   ("prefsrc", Str "10.8.0.3")];
                  [("dst", Str "10.0.0.0/24"); ("dev", Str "eth0");
                   ("prefsrc", Str "10.0.0.5")] ] in
  let w := Sample.world_of routes Sample.picture (Ok "{}") in
  devId (Eff.st (getIP w (initial Sample.config))) = Str "10.8.0.3".
Proof.
  cbv zeta.
  exact (proj1 (proj2
    (last_wlan0_route_wins
       (Sample.world_of
          [ [("dst", Str "default"); ("dev", Str "wlan0");
             ("prefsrc", Str "192.168.1.20")];
            [("dst", Str "10.8.0.0/24"); ("dev", Str "wlan0");
             ("prefsrc", Str "10.8.0.3")];
            [("dst", Str "10.0.0.0/24"); ("dev", Str "eth0");
             ("prefsrc", Str "10.0.0.5")] ] Sample.picture (Ok "{}"))
       (initial Sample.config)
       [ [("dst", Str "default"); ("dev", Str "wlan0"); ("prefsrc", Str "192.168.1.20")] ]
       [ [("dst", Str "10.0.0.0/24"); ("dev", Str "eth0"); ("prefsrc", Str "10.0.0.5")] ]
       [("dst", Str "10.8.0.0/24"); ("dev", Str "wlan0"); ("prefsrc", Str "10.8.0.3")]
       (Str "10.8.0.3") eq_refl eq_refl eq_refl eq_refl eq_refl))).
Defined.

(** Once the table has been read, no callback reads it again nor changes
    the id or the address. *)
Lemma capture_keeps_settled (w : world) (d i : value) :
  Eff.keeps (settled d i) not_popen (capture_image_and_save_to_base64 w).
Proof.
  unfold capture_image_and_save_to_base64.
  apply EffFacts.keeps_bind; [dev_tac | intro cam].
  apply EffFacts.keeps_bind; [dev_tac | intros _].
  apply EffFacts.keeps_gets_bind. intros s [H1 H2]. rewrite H1. cbn [Z.eqb].
  dev_tac.
Qed.

Lemma fire_keeps_settled (cfg : config_t) (e : event) (d i : value) :
  Eff.keeps (settled d i) not_popen (fire cfg e).
Proof.
  destruct e as [w | | w]; cbn [fire].
  - unfold buttonCallback, captureImageOpenai, post_content, gpio_output.
    do 5 (apply EffFacts.keeps_bind; [dev_tac | intros _]).
    apply EffFacts.keeps_bind; [apply capture_keeps_settled | intros [img pil]].
    dev_tac.
  - unfold buttonCallback2, gpio_output. dev_tac.
  - unfold buttonCallback3, captureImageGoogle, analyze_image_google, post_content,
      gpio_output.
    do 5 (apply EffFacts.keeps_bind; [dev_tac | intros _]).
    apply EffFacts.keeps_bind; [apply capture_keeps_settled | intros [img pil]].
    dev_tac.
Qed.

(** X22.  The routing table is read once.  After the capture that resolved
    the id, no series of presses, whatever the captures do, queries the
    routing table again, and the device id and the address stay what they
    were. *)
Theorem routing_table_read_once (cfg : config_t) (es : list event) (g : globals) :
  firstTime g = 1 ->
  Forall not_popen (List.concat (fst (run cfg es g)))
  /\ devId (snd (run cfg es g)) = devId g
  /\ ip (snd (run cfg es g)) = ip g
  /\ firstTime (snd (run cfg es g)) = 1.
Proof.
  intro Hf.
  assert (H : forall es g, settled (devId g) (ip g) g ->
            forall d i, d = devId g -> i = ip g ->
            Forall not_popen (List.concat (fst (run cfg es g)))
            /\ settled d i (snd (run cfg es g))).
  { clear. intros es. induction es as [| e es IH]; intros g Hg d i -> ->.
    - cbn. split; [constructor | exact Hg].
    - cbn [run]. destruct (fire_keeps_settled cfg e _ _ g Hg) as [H1 H2].
      destruct H1 as (A & B & C).
      specialize (IH (Eff.st (fire cfg e g)) ltac:(repeat split; auto; congruence)
                     (devId g) (ip g) ltac:(congruence) ltac:(congruence)).
      destruct (run cfg es (Eff.st (fire cfg e g))) as [ls g']. cbn in *.
      destruct IH as [I1 I2]. split; [apply Forall_app; tauto | exact I2]. }
  destruct (H es g ltac:(repeat split; auto) _ _ eq_refl eq_refl) as [H1 (A & B & C)].
  auto.
Qed.

Lemma routing_table_read_once_witness :
  let w := Sample.world_of Sample.cable Sample.picture (Ok "{}") in
  Forall not_popen
    (List.concat (fst (run Sample.config [OpenaiButton w; GoogleButton w] Sample.warm)))
  /\ devId (snd (run Sample.config [OpenaiButton w; GoogleButton w] Sample.warm))
     = Str "192.168.1.20".
Proof.
  cbv zeta.
  destruct (routing_table_read_once Sample.config
              [OpenaiButton (Sample.world_of Sample.cable Sample.picture (Ok "{}"));
               GoogleButton (Sample.world_of Sample.cable Sample.picture (Ok "{}"))]
              Sample.warm eq_refl) as (H1 & H2 & _).
  split; [exact H1 | exact H2].
Defined.

(** ** The LEDs *)

Lemma led_after_app (pin : Z) (l1 l2 : list effect) (b : level) :
  led_after pin (l1 ++ l2) b = led_after pin l2 (led_after pin l1 b).
Proof.
  revert b. induction l1 as [| x l1 IH]; intro b; [reflexivity |].
  destruct x; cbn [app led_after]; apply IH.
Qed.

Lemma led_after_quiet (pin : Z) (l : list effect) (b : level) :
  Forall not_gpio l -> led_after pin l b = b.
Proof.
  induction 1 as [| x l Hx F IH]; [reflexivity |].
  destruct x; cbn in *; try contradiction; exact IH.
Qed.

Lemma capture_no_gpio (w : world) :
  Eff.keeps (fun _ => True) not_gpio (capture_image_and_save_to_base64 w).
Proof. unfold capture_image_and_save_to_base64. keeps_tac. Qed.

(** X23.  With the two LEDs on different pins, a press on a capture button
    leaves both LEDs LOW when its capture yielded a picture, whatever
    became of the analysis and of the upload, and leaves both HIGH when
    the capture raised. *)
Theorem leds_after_capture_press (cfg : config_t) (w : world) (e : event)
                                 (g : globals) (b1 b2 : level) :
  e = OpenaiButton w \/ e = GoogleButton w ->
  led_1 cfg <> led_2 cfg ->
  let c := capture_image_and_save_to_base64 w
             (set_shutdownCounter (shutdown_counter_max cfg) g) in
  let lv := match Eff.val c with
            | Ok _ => LOW
            | Raise _ => HIGH
            end in
  led_after (led_1 cfg) (Eff.log (fire cfg e g)) b1 = lv
  /\ led_after (led_2 cfg) (Eff.log (fire cfg e g)) b2 = lv.
Proof.
  intros He Hn c lv. subst lv c.
  assert (E12 : (led_1 cfg =? led_2 cfg) = false) by (apply Z.eqb_neq; exact Hn).
  assert (E21 : (led_2 cfg =? led_1 cfg) = false) by (apply Z.eqb_neq; congruence).
  destruct (capture_no_gpio w (set_shutdownCounter (shutdown_counter_max cfg) g) Logic.I)
    as [_ Hq].
  destruct He as [-> | ->]; cbn [fire].
  - rewrite buttonCallback_out.
    destruct (capture_image_and_save_to_base64 w _) as [[[img pil] | ex] s1 l1];
      cbn [Eff.val Eff.log] in *; rewrite !led_after_app, !(led_after_quiet _ l1) by exact Hq;
      cbn [led_after]; rewrite ?Z.eqb_refl, ?E12, ?E21; split; reflexivity.
  - rewrite buttonCallback3_out.
    destruct (capture_image_and_save_to_base64 w _) as [[[img pil] | ex] s1 l1];
      cbn [Eff.val Eff.log] in *; rewrite !led_after_app, !(led_after_quiet _ l1) by exact Hq;
      [destruct (gemini w pil) |]; cbn [led_after];
      rewrite ?Z.eqb_refl, ?E12, ?E21; split; reflexivity.
Qed.

Lemma leds_after_capture_press_witness :
  let ok := Sample.world_of Sample.wifi Sample.picture
              (Raise (LibraryError "requests.ConnectionError")) in
  let ko := Sample.world_of Sample.wifi (Raise (LibraryError "capture_array")) (Ok "{}") in
  led_after 12 (Eff.log (fire Sample.config (OpenaiButton ok) Sample.warm)) HIGH = LOW
  /\ led_after 18 (Eff.log (fire Sample.config (GoogleButton ko) Sample.warm)) LOW = HIGH.
Proof.
  cbv zeta. split.
  - exact (proj1 (leds_after_capture_press Sample.config
                    (Sample.world_of Sample.wifi Sample.picture
                       (Raise (LibraryError "requests.ConnectionError")))
                    _ Sample.warm HIGH HIGH (or_introl eq_refl) ltac:(discriminate))).
  - exact (proj2 (leds_after_capture_press Sample.config
                    (Sample.world_of Sample.wifi (Raise (LibraryError "capture_array"))
                       (Ok "{}"))
                    _ Sample.warm LOW LOW (or_intror eq_refl) ltac:(discriminate))).
Defined.

End DeviceSpec.
